(** * elasticsearch_demo.py: the synthetic activity generator and the bulk loader

    A shallow embedding of [src/elk_python/elasticsearch_demo.py].

    - Python values are modelled as the interpreter has them: [int] as [Z],
      [str] as [string], [float] as an IEEE-754 binary64 value
      ([spec_float] with precision 53), a [datetime] as a point of the
      proleptic Gregorian time line counted in microseconds.
    - The module [random] is an interface ([RandomSource]); every theorem
      holds for every generator behind it.
    - Exceptions are values of [exn]; effectful code lives in the state and
      exception monad [M]. *)

From Stdlib Require Import ZArith List String Ascii Bool Lia.
From Stdlib Require Import Floats.SpecFloat.
From stdpp Require Import gmap strings list.

Local Open Scope string_scope.
Local Open Scope Z_scope.

(** ** Exceptions and the state/exception monad *)

Inductive exn_class :=
| IndexError | ValueError | OverflowError | ConnectionError
| RequestError | TransportError | BulkIndexError.

Record exn := Raise { exn_class_of : exn_class; exn_msg : string }.

Inductive result (A : Type) :=
| Ok (a : A)
| Err (e : exn).
Arguments Ok {A} a.
Arguments Err {A} e.

Definition M (S A : Type) : Type := S -> result A * S.

Definition ret {S A} (a : A) : M S A := fun s => (Ok a, s).

Definition raise {S A} (e : exn) : M S A := fun s => (Err e, s).

Definition bind {S A B} (m : M S A) (k : A -> M S B) : M S B :=
  fun s => match m s with
           | (Ok a, s') => k a s'
           | (Err e, s') => (Err e, s')
           end.

(** [try: m except Exception as e: h e] *)
Definition try_except {S A} (m : M S A) (h : exn -> M S A) : M S A :=
  fun s => match m s with
           | (Ok a, s') => (Ok a, s')
           | (Err e, s') => h e s'
           end.

Declare Scope py_scope.
Delimit Scope py_scope with py.
Notation "x <- m ;; k" := (bind m (fun x => k))
  (at level 100, m at next level, right associativity) : py_scope.
Notation "m ;;; k" := (bind m (fun _ => k))
  (at level 100, right associativity) : py_scope.

Definition signals_error {A} (r : result A) : Prop := exists e, r = Err e.

(** ** [str(int)] and the zero-padded [%0wd] renderings *)

Definition digit_char (d : Z) : ascii := ascii_of_nat (48 + Z.to_nat d).

Fixpoint digits_fuel (fuel : nat) (n : Z) (acc : string) : string :=
  match fuel with
  | O => acc
  | S f =>
      let acc' := String (digit_char (n mod 10)) acc in
      if n <? 10 then acc' else digits_fuel f (n / 10) acc'
  end.

(** [str(n)] for an [int]; an integer below [2^k] has at most [k] digits. *)
Definition str_int (n : Z) : string :=
  if n <? 0
  then String "-" (digits_fuel (Z.to_nat (Z.log2 (- n)) + 1) (- n) EmptyString)
  else digits_fuel (Z.to_nat (Z.log2 n) + 1) n EmptyString.

(** ["%0wd" % n] for [0 <= n]: the [w] low decimal digits, padded with zeros. *)
Fixpoint zero_padded (w : nat) (n : Z) (acc : string) : string :=
  match w with
  | O => acc
  | S w' => zero_padded w' (n / 10) (String (digit_char (n mod 10)) acc)
  end.

Definition pad (w : nat) (n : Z) : string := zero_padded w n EmptyString.

(** ** [float]: IEEE-754 binary64 *)

Definition prec : Z := 53.
Definition emax : Z := 1024.

Definition float : Type := spec_float.

(** The binary64 value nearest to [n / d] (ties to even), with sign [s]. *)
Definition float_of_ratio (s : bool) (n d : positive) : float :=
  let '(mz, ez, lz) := SFdiv_core_binary prec emax (Zpos n) 0 (Zpos d) 0 in
  binary_round_aux prec emax s mz ez lz.

(** A decimal literal [m * 10^-ndec] of the source text, e.g. [40.7128]. *)
Definition float_lit (m : Z) (ndec : nat) : float :=
  match m with
  | Z0 => S754_zero false
  | Zpos p => float_of_ratio false p (Z.to_pos (10 ^ Z.of_nat ndec))
  | Zneg p => float_of_ratio true p (Z.to_pos (10 ^ Z.of_nat ndec))
  end.

Definition fadd : float -> float -> float := SFadd prec emax.
Definition fsub : float -> float -> float := SFsub prec emax.
Definition fmul : float -> float -> float := SFmul prec emax.


(** Round-half-even of the rational [n / d] to an integer, [0 <= n], [0 < d]. *)
Definition round_half_even (n d : Z) : Z :=
  let q := n / d in
  let r := n mod d in
  match 2 * r ?= d with
  | Lt => q
  | Gt => q + 1
  | Eq => if Z.even q then q else q + 1
  end.

(** [round(x, ndigits)] for a float [x] and [0 <= ndigits]: the exact value
    of [x] is rounded half-even to [ndigits] decimals and the decimal result
    converted back to the nearest float; zeros keep the sign of [x];
    infinities and NaN round to themselves. *)
Definition py_round (x : float) (ndigits : nat) : float :=
  match x with
  | S754_finite s m e =>
      let p := Z.pow 10 (Z.of_nat ndigits) in
      match e with
      | Zneg k =>
          match round_half_even (Zpos m * p) (Z.pow 2 (Zpos k)) with
          | Zpos n => float_of_ratio s n (Z.to_pos p)
          | _ => S754_zero s
          end
      | _ => x
      end
  | _ => x
  end.

(** ** The module [random]

    [randbelow n] is [Random._randbelow(n)], an integer of [range(n)] for
    [0 < n]; [random_bits53] is the 53-bit integer [k] from which
    [Random.random()] builds the float [k * 2**-53] of [[0.0, 1.0)]. The
    state [rng] is the generator's internal state, fixed by the seed. *)

Class RandomSource := {
  rng : Type;
  randbelow : Z -> rng -> Z * rng;
  random_bits53 : rng -> Z * rng;
  randbelow_range : forall n g, 0 < n -> 0 <= fst (randbelow n g) < n;
  random_bits53_range : forall g, 0 <= fst (random_bits53 g) < 2 ^ 53
}.

(** ** [datetime] and [timedelta]

    A naive [datetime] is the number of microseconds since
    [0001-01-01T00:00:00]; a [timedelta] is a number of microseconds.
    Values outside [MINYEAR..MAXYEAR] do not exist: the arithmetic raises
    [OverflowError] instead. *)

Definition datetime : Type := Z.
Definition timedelta_t : Type := Z.

Definition US_PER_SECOND : Z := 1000000.
Definition US_PER_DAY : Z := 86400 * US_PER_SECOND.
Definition MAXORDINAL : Z := 3652059.
Definition DATETIME_END : Z := MAXORDINAL * US_PER_DAY.

Definition datetime_valid (t : datetime) : Prop := 0 <= t < DATETIME_END.

(** [timedelta(days=d, hours=h, minutes=m)] *)
Definition timedelta (days hours minutes : Z) : timedelta_t :=
  ((days * 24 + hours) * 60 + minutes) * 60 * US_PER_SECOND.

Definition out_of_range : exn := Raise OverflowError "date value out of range".

(** [t + d] *)
Definition datetime_add {S} (t : datetime) (d : timedelta_t) : M S datetime :=
  let r := t + d in
  if (0 <=? r) && (r <? DATETIME_END) then ret r else raise out_of_range.

(** [t - d] *)
Definition datetime_sub {S} (t : datetime) (d : timedelta_t) : M S datetime :=
  datetime_add t (- d).

Definition DAYS_IN_MONTH : list Z :=
  [-1; 31; 28; 31; 30; 31; 30; 31; 31; 30; 31; 30; 31].
Definition DAYS_BEFORE_MONTH : list Z :=
  [-1; 0; 31; 59; 90; 120; 151; 181; 212; 243; 273; 304; 334].

Definition table (l : list Z) (i : Z) : Z := nth (Z.to_nat i) l 0.

Definition is_leap (year : Z) : bool :=
  (year mod 4 =? 0) && (negb (year mod 100 =? 0) || (year mod 400 =? 0)).

Definition days_before_year (year : Z) : Z :=
  let y := year - 1 in y * 365 + y / 4 - y / 100 + y / 400.

Definition days_in_month (year month : Z) : Z :=
  if (month =? 2) && is_leap year then 29 else table DAYS_IN_MONTH month.

Definition days_before_month (year month : Z) : Z :=
  table DAYS_BEFORE_MONTH month + (if (2 <? month) && is_leap year then 1 else 0).

Definition ymd2ord (year month day : Z) : Z :=
  days_before_year year + days_before_month year month + day.

Definition DI400Y : Z := 146097.
Definition DI100Y : Z := 36524.
Definition DI4Y : Z := 1461.

(** [_ord2ymd]: ordinal (1 is 0001-01-01) to (year, month, day). *)
Definition ord2ymd (ordinal : Z) : Z * Z * Z :=
  let n := ordinal - 1 in
  let n400 := n / DI400Y in
  let n := n mod DI400Y in
  let year := n400 * 400 + 1 in
  let n100 := n / DI100Y in
  let n := n mod DI100Y in
  let n4 := n / DI4Y in
  let n := n mod DI4Y in
  let n1 := n / 365 in
  let n := n mod 365 in
  let year := year + n100 * 100 + n4 * 4 + n1 in
  if (n1 =? 4) || (n100 =? 4) then (year - 1, 12, 31)
  else
    let leapyear := (n1 =? 3) && (negb (n4 =? 24) || (n100 =? 3)) in
    let month := Z.shiftr (n + 50) 5 in
    let preceding :=
      table DAYS_BEFORE_MONTH month + (if (2 <? month) && leapyear then 1 else 0) in
    if n <? preceding then
      let month := month - 1 in
      let preceding :=
        preceding - (table DAYS_IN_MONTH month
                     + (if (month =? 2) && leapyear then 1 else 0)) in
      (year, month, n - preceding + 1)
    else (year, month, n - preceding + 1).

(** [t.isoformat()]: [YYYY-MM-DDTHH:MM:SS], followed by [.ffffff] when the
    microsecond is not zero. *)
Definition isoformat (t : datetime) : string :=
  let '(year, month, day) := ord2ymd (t / US_PER_DAY + 1) in
  let us_of_day := t mod US_PER_DAY in
  let sec_of_day := us_of_day / US_PER_SECOND in
  let us := us_of_day mod US_PER_SECOND in
  let hh := sec_of_day / 3600 in
  let mm := (sec_of_day mod 3600) / 60 in
  let ss := sec_of_day mod 60 in
  pad 4 year +:+ "-" +:+ pad 2 month +:+ "-" +:+ pad 2 day +:+ "T"
  +:+ pad 2 hh +:+ ":" +:+ pad 2 mm +:+ ":" +:+ pad 2 ss
  +:+ (if us =? 0 then EmptyString else "." +:+ pad 6 us).

(** [datetime.fromisoformat], on the two shapes [isoformat] writes
    ([YYYY-MM-DDTHH:MM:SS] and [YYYY-MM-DDTHH:MM:SS.ffffff]); [None] stands
    for its [ValueError]. It reads a stored timestamp back as an instant. *)

Definition digit_value (c : ascii) : option Z :=
  let n := Z.of_nat (nat_of_ascii c) in
  if (48 <=? n) && (n <=? 57) then Some (n - 48) else None.

(** Read exactly [w] decimal digits off the front of [s]. *)
Fixpoint take_digits (w : nat) (s : string) (acc : Z) : option (Z * string) :=
  match w with
  | O => Some (acc, s)
  | S w' =>
      match s with
      | String c s' =>
          match digit_value c with
          | Some d => take_digits w' s' (acc * 10 + d)
          | None => None
          end
      | EmptyString => None
      end
  end.

(** Read the character [c] off the front of [s]. *)
Definition expect (c : ascii) (s : string) : option string :=
  match s with
  | String c' s' => if Ascii.eqb c c' then Some s' else None
  | EmptyString => None
  end.

Definition parse_fraction (s : string) : option Z :=
  match s with
  | EmptyString => Some 0
  | String c s' =>
      if Ascii.eqb c "."
      then match take_digits 6 s' 0 with
           | Some (us, EmptyString) => Some us
           | _ => None
           end
      else None
  end.

(** [datetime(year, month, day, hh, mm, ss, us)] *)
Definition datetime_of (year month day hh mm ss us : Z) : datetime :=
  (ymd2ord year month day - 1) * US_PER_DAY
  + ((hh * 60 + mm) * 60 + ss) * US_PER_SECOND + us.

Definition fromisoformat (s : string) : option datetime :=
  '(year, s) ← take_digits 4 s 0;
  s ← expect "-" s;
  '(month, s) ← take_digits 2 s 0;
  s ← expect "-" s;
  '(day, s) ← take_digits 2 s 0;
  s ← expect "T" s;
  '(hh, s) ← take_digits 2 s 0;
  s ← expect ":" s;
  '(mm, s) ← take_digits 2 s 0;
  s ← expect ":" s;
  '(ss, s) ← take_digits 2 s 0;
  us ← parse_fraction s;
  if (1 <=? year) && (1 <=? month) && (month <=? 12)
     && (1 <=? day) && (day <=? days_in_month year month)
     && (hh <? 24) && (mm <? 60) && (ss <? 60)
  then Some (datetime_of year month day hh mm ss us)
  else None.

(** ** Dotted-quad addresses *)

(** The fields of [s] between its dots: [s.split(".")]. *)
Fixpoint split_dots (s : string) : list string :=
  match s with
  | EmptyString => [EmptyString]
  | String c s' =>
      if Ascii.eqb c "."
      then EmptyString :: split_dots s'
      else match split_dots s' with
           | p :: ps => String c p :: ps
           | [] => [String c EmptyString]
           end
  end.

(** A decimal octet: one to three digits with a value of at most 255. *)
Definition octet (p : string) : bool :=
  match p with
  | EmptyString => false
  | _ => (String.length p <=? 3)%nat
         && match take_digits (String.length p) p 0 with
            | Some (v, _) => v <=? 255
            | None => false
            end
  end.

(** A syntactically valid IPv4 address: four dot-separated decimal octets. *)
Definition valid_ipv4 (s : string) : bool :=
  match split_dots s with
  | [a; b; c; d] => octet a && octet b && octet c && octet d
  | _ => false
  end.

(** ** The record generator *)

Record user := { uid : string; uname : string; udept : string }.

Record geo_point := { lat : float; lon : float }.

(** One activity record: the dict built in the loop body, key by key. *)
Record activity := {
  timestamp : string;
  user_id : string;
  user_name : string;
  action : string;
  department : string;
  status : string;
  response_time : float;
  ip_address : string;
  user_agent : string;
  location : geo_point;
  session_duration : Z
}.

Definition users : list user :=
  [ {| uid := "U001"; uname := "John Doe"; udept := "engineering" |};
    {| uid := "U002"; uname := "Jane Smith"; udept := "marketing" |};
    {| uid := "U003"; uname := "Bob Johnson"; udept := "sales" |};
    {| uid := "U004"; uname := "Alice Brown"; udept := "engineering" |};
    {| uid := "U005"; uname := "Charlie Wilson"; udept := "hr" |} ].

Definition actions : list string :=
  [ "login"; "logout"; "file_upload"; "file_download"; "api_call";
    "database_query" ].

Definition statuses : list string := [ "success"; "failed"; "timeout" ].

Definition locations : list geo_point :=
  [ {| lat := float_lit 407128 4; lon := float_lit (-740060) 4 |};
    {| lat := float_lit 377749 4; lon := float_lit (-1224194) 4 |};
    {| lat := float_lit 515074 4; lon := float_lit (-1278) 4 |};
    {| lat := float_lit 356762 4; lon := float_lit 1396503 4 |};
    {| lat := float_lit 190760 4; lon := float_lit 728777 4 |} ].

Definition USER_AGENT : string :=
  "Mozilla/5.0 (Windows NT 10.0; Win64; x64) AppleWebKit/537.36".

Section Generator.
Context {R : RandomSource}.

(** What the generator reads and changes: the wall clock behind
    [datetime.now()] and the state of the module-level random source. *)
Record world := { clock : datetime; seed_state : rng }.

Definition datetime_now : M world datetime :=
  fun w => (Ok (clock w), w).

Definition draw {A} (f : rng -> A * rng) : M world A :=
  fun w => let '(a, g) := f (seed_state w) in
           (Ok a, {| clock := clock w; seed_state := g |}).

(** [random.choice(seq)] *)
Definition choice {A} (seq : list A) : M world A :=
  if Nat.eqb (length seq) 0
  then raise (Raise IndexError "Cannot choose from an empty sequence")
  else (i <- draw (randbelow (Z.of_nat (length seq)));;
        match seq !! Z.to_nat i with
        | Some x => ret x
        | None => raise (Raise IndexError "list index out of range")
        end)%py.

(** [random.randint(a, b)], that is [randrange(a, b + 1)] *)
Definition randint (a b : Z) : M world Z :=
  let width := b + 1 - a in
  if 0 <? width
  then (i <- draw (randbelow width);; ret (a + i))%py
  else raise (Raise ValueError "empty range for randrange()").

(** [random.random()]: [k * 2**-53] for the 53 random bits [k] *)
Definition random : M world float :=
  (k <- draw random_bits53;; ret (binary_normalize prec emax k (-53) false))%py.

(** [random.uniform(a, b)]: [a + (b - a) * random()] *)
Definition uniform (a b : float) : M world float :=
  (r <- random;; ret (fadd a (fmul (fsub b a) r)))%py.

(** The body of the loop: one record. *)
Definition sample_record (base_time : datetime) : M world activity :=
  (user <- choice users;;
   location <- choice locations;;
   days <- randint 0 7;;
   hours <- randint 0 23;;
   minutes <- randint 0 59;;
   t <- datetime_add base_time (timedelta days hours minutes);;
   action <- choice actions;;
   status <- choice statuses;;
   x <- uniform (float_lit 1 1) (float_lit 50 1);;
   a <- randint 1 255;;
   b <- randint 1 255;;
   duration <- randint 60 3600;;
   ret {| timestamp := isoformat t;
          user_id := uid user;
          user_name := uname user;
          action := action;
          department := udept user;
          status := status;
          response_time := py_round x 2;
          ip_address := "192.168." +:+ str_int a +:+ "." +:+ str_int b;
          user_agent := USER_AGENT;
          location := location;
          session_duration := duration |})%py.

(** [for i in range(n): sample_data.append(body)] *)
Fixpoint for_range (n : nat) (body : M world activity)
         (sample_data : list activity) : M world (list activity) :=
  match n with
  | O => ret sample_data
  | S n' => (record <- body;; for_range n' body (sample_data ++ [record]))%py
  end.

Definition generate_sample_data (num_records : Z) : M world (list activity) :=
  (now <- datetime_now;;
   base_time <- datetime_sub now (timedelta 7 0 0);;
   for_range (Z.to_nat num_records) (sample_record base_time) [])%py.

End Generator.

(** ** A scripted random source

    The seed is the tape of raw draws still to come: each call consumes one
    entry and reduces it into the requested range (an exhausted tape keeps
    answering 0). Concrete runs of the generator are traced with it. *)

Definition tape_randbelow (n : Z) (g : list Z) : Z * list Z :=
  match g with
  | [] => (0, [])
  | x :: g' => (x mod n, g')
  end.

Definition tape_bits53 (g : list Z) : Z * list Z := tape_randbelow (2 ^ 53) g.

Lemma tape_randbelow_range n g : 0 < n -> 0 <= fst (tape_randbelow n g) < n.
Proof.
  intros Hn. destruct g as [|x g']; simpl; [lia | apply Z.mod_pos_bound; lia].
Qed.

Lemma tape_bits53_range g : 0 <= fst (tape_bits53 g) < 2 ^ 53.
Proof. apply tape_randbelow_range. reflexivity. Qed.

Definition TapeSource : RandomSource :=
  {| rng := list Z;
     randbelow := tape_randbelow;
     random_bits53 := tape_bits53;
     randbelow_range := tape_randbelow_range;
     random_bits53_range := tape_bits53_range |}.



(** * The remote store and the loader *)

(** ** The cluster

    An index is its creation body (field types and settings) and the
    documents written to it. The state the loader and the schema call act on
    is the set of indices of the cluster together with the lines printed so
    far. The cluster is taken to be reachable for [indices.exists] and
    [indices.create]; the outcomes of the bulk helper, transport failures
    included, are left open (see [insert_data]). *)

Inductive field_type :=
| FDate | FKeyword | FText | FTextWithKeyword | FFloat | FIp | FGeoPoint | FInteger.

Record index_body := {
  properties : list (string * field_type);
  number_of_shards : Z;
  number_of_replicas : Z
}.

Record index_state := { body : index_body; docs : list activity }.

Record es_world := { cluster : gmap string index_state; stdout : list string }.

Definition print (line : string) : M es_world unit :=
  fun s => (Ok tt, {| cluster := cluster s; stdout := (stdout s ++ [line])%list |}).

(** [es.indices.exists(index=index_name)] *)
Definition indices_exists (index_name : string) : M es_world bool :=
  fun s => (Ok (bool_decide (is_Some (cluster s !! index_name))), s).

(** [es.indices.create(index=index_name, body=body)]: the cluster refuses to
    create an index that is already there. *)
Definition indices_create (index_name : string) (b : index_body) : M es_world unit :=
  fun s =>
    match cluster s !! index_name with
    | Some _ => (Err (Raise RequestError "resource_already_exists_exception"), s)
    | None =>
        (Ok tt, {| cluster := <[index_name := {| body := b; docs := [] |}]> (cluster s);
                   stdout := stdout s |})
    end.

Definition mapping : index_body :=
  {| properties :=
       [ ("timestamp", FDate); ("user_id", FKeyword);
         ("user_name", FTextWithKeyword); ("action", FKeyword);
         ("department", FKeyword); ("status", FKeyword);
         ("response_time", FFloat); ("ip_address", FIp);
         ("user_agent", FText); ("location", FGeoPoint);
         ("session_duration", FInteger) ];
     number_of_shards := 1;
     number_of_replicas := 1 |}.

Definition create_index_if_not_exists (index_name : string) : M es_world bool :=
  (present <- indices_exists index_name;;
   if present
   then (print ("Index '" +:+ index_name +:+ "' already exists, skipping creation");;;
         ret false)
   else (indices_create index_name mapping;;;
         print ("Index '" +:+ index_name +:+ "' created successfully");;;
         ret true))%py.

(** ** The bulk loader *)

(** One bulk action: [{"_index": index_name, "_source": doc}]. *)
Record bulk_action := { _index : string; _source : activity }.

(** One entry of the list of failures the helper hands back or raises with. *)
Record bulk_error := { failed_doc : activity; reason : string }.

(** The result type the specification asks of a submission. The source has
    no such value: [insert_data] has no [return] statement. *)
Record BulkResult := { accepted : nat; rejected : list (activity * string) }.

Section Loader.
(** [elasticsearch.helpers.bulk(es, actions)]: it returns the pair
    [(success, failed)] or raises. *)
Variable bulk : list bulk_action -> M es_world (nat * list bulk_error).

(** [for doc in data: actions.append({...})] *)
Fixpoint prepare (index_name : string) (data : list activity)
         (actions : list bulk_action) : list bulk_action :=
  match data with
  | [] => actions
  | doc :: data' =>
      prepare index_name data'
              (actions ++ [{| _index := index_name; _source := doc |}])
  end.

(** The value of a call is [None] when the function ends without a
    [return]; here it always does. *)
Definition insert_data (index_name : string) (data : list activity)
  : M es_world (option BulkResult) :=
  let actions := prepare index_name data [] in
  (try_except
     (outcome <- bulk actions;;
      let '(success, failed) := outcome in
      print ("Successfully inserted " +:+ str_int (Z.of_nat success) +:+ " documents");;;
      match failed with
      | [] => ret tt
      | _ => print ("Failed to insert " +:+ str_int (Z.of_nat (length failed))
                    +:+ " documents")
      end)
     (fun e => print ("Error during bulk insert: " +:+ exn_msg e));;;
   ret None)%py.
End Loader.

(** ** The bulk helper of the client library, with its default arguments

    [elasticsearch.helpers.bulk(es, actions)] sends the actions in chunks of
    [chunk_size=500]. The cluster indexes every document of a chunk that it
    accepts (an index that is missing is created on the fly) and answers with
    one outcome per document. With [raise_on_error=True], the default, the
    helper raises [BulkIndexError] as soon as a chunk comes back with a
    failure, and otherwise returns [(success, [])] at the end. *)

Section Helper.
(** The cluster's verdict on one document. *)
Variable accepts : activity -> bool.

Definition CHUNK_SIZE : nat := 500.

Definition DYNAMIC : index_body :=
  {| properties := []; number_of_shards := 1; number_of_replicas := 1 |}.

Definition index_doc (a : bulk_action) (c : gmap string index_state)
  : gmap string index_state :=
  let ix := default {| body := DYNAMIC; docs := [] |} (c !! _index a) in
  <[_index a := {| body := body ix; docs := (docs ix ++ [_source a])%list |}]> c.

Fixpoint send_chunk (chunk : list bulk_action) (c : gmap string index_state)
         (ok : nat) (errors : list bulk_error)
  : gmap string index_state * nat * list bulk_error :=
  match chunk with
  | [] => (c, ok, errors)
  | a :: chunk' =>
      if accepts (_source a)
      then send_chunk chunk' (index_doc a c) (S ok) errors
      else send_chunk chunk' c ok
             (errors ++ [{| failed_doc := _source a;
                            reason := "mapper_parsing_exception" |}])%list
  end.

Fixpoint chunks_fuel {A} (fuel size : nat) (l : list A) : list (list A) :=
  match l, fuel with
  | [], _ => []
  | _, O => [l]
  | _, S fuel' => take size l :: chunks_fuel fuel' size (drop size l)
  end.

Definition chunks_of {A} (size : nat) (l : list A) : list (list A) :=
  chunks_fuel (length l) size l.

Fixpoint streaming_bulk (chunks : list (list bulk_action)) (success : nat)
  : M es_world nat :=
  match chunks with
  | [] => ret success
  | chunk :: rest =>
      fun s =>
        let '(c, ok, errors) := send_chunk chunk (cluster s) 0%nat [] in
        let s' := {| cluster := c; stdout := stdout s |} in
        match errors with
        | [] => streaming_bulk rest (success + ok)%nat s'
        | _ => (Err (Raise BulkIndexError
                       (str_int (Z.of_nat (length errors))
                        +:+ " document(s) failed to index.")), s')
        end
  end.

Definition helpers_bulk (actions : list bulk_action)
  : M es_world (nat * list bulk_error) :=
  (success <- streaming_bulk (chunks_of CHUNK_SIZE actions) 0%nat;;
   ret (success, []))%py.
End Helper.

(** A cluster that checks the [ip] field of a document, as the mapping of
    [ip_address] makes it do. *)
Definition accepts_ip (doc : activity) : bool := valid_ipv4 (ip_address doc).

Definition INDEX_NAME : string := "user_activity_logs".

Definition fresh_cluster : es_world := {| cluster := ∅; stdout := [] |}.

Definition good_doc : activity :=
  {| timestamp := "2024-05-01T13:05:09";
     user_id := "U001"; user_name := "John Doe"; action := "login";
     department := "engineering"; status := "success";
     response_time := float_lit 255 2;
     ip_address := "192.168.11.1";
     user_agent := USER_AGENT;
     location := {| lat := float_lit 407128 4; lon := float_lit (-740060) 4 |};
     session_duration := 160 |}.

Definition malformed_doc : activity :=
  {| timestamp := "2024-05-01T13:05:09";
     user_id := "U001"; user_name := "John Doe"; action := "login";
     department := "engineering"; status := "success";
     response_time := float_lit 255 2;
     ip_address := "not-an-ip";
     user_agent := USER_AGENT;
     location := {| lat := float_lit 407128 4; lon := float_lit (-740060) 4 |};
     session_duration := 160 |}.

(** Ten documents, the fourth of them malformed. *)
Definition mixed_batch : list activity :=
  (replicate 3 good_doc ++ [malformed_doc] ++ replicate 6 good_doc)%list.

(** * Predicates used in the statements *)

(** [returns m s P]: run from [s], [m] returns normally (no exception) and
    the value and final state satisfy [P]. *)
Definition returns {S A} (m : M S A) (s : S) (P : A -> S -> Prop) : Prop :=
  exists a s', m s = (Ok a, s') /\ P a s'.

(** ** Signs of binary64 results

    [has_sign s x]: [x] is a number (not a NaN) whose sign bit is [s]. The
    rounding of a product, sum or quotient never changes the sign the exact
    result has, and never makes a NaN out of numbers. *)

Definition has_sign (s : bool) (x : float) : Prop :=
  match x with
  | S754_zero s' | S754_infinity s' | S754_finite s' _ _ => s' = s
  | S754_nan => False
  end.

(** ** What one generated record looks like *)

(** [well_generated base_time r]: every field of [r] is what one round of the
    loop body can write when the base time is [base_time]. *)
Record well_generated (base_time : datetime) (r : activity) : Prop := {
  gen_timestamp :
    exists days hours minutes,
      0 <= days <= 7 /\ 0 <= hours <= 23 /\ 0 <= minutes <= 59 /\
      timestamp r = isoformat (base_time + timedelta days hours minutes);
  gen_user :
    exists u, u ∈ users /\
      user_id r = uid u /\ user_name r = uname u /\ department r = udept u;
  gen_action : action r ∈ actions;
  gen_status : status r ∈ statuses;
  gen_response_time : has_sign false (response_time r);
  gen_ip_address :
    exists a b, 1 <= a <= 255 /\ 1 <= b <= 255 /\
      ip_address r = "192.168." +:+ str_int a +:+ "." +:+ str_int b;
  gen_user_agent : user_agent r = USER_AGENT;
  gen_location : location r ∈ locations;
  gen_session_duration : 60 <= session_duration r <= 3600
}.

(** The clock readings for which no date of the run leaves
    [0001-01-01 .. 9999-12-31]: seven days back and almost one day ahead. *)
Definition clock_in_range (now : datetime) : Prop :=
  timedelta 7 0 0 <= now /\ now + timedelta 0 23 59 < DATETIME_END.

(** ** Two runs from the same seed

    [agree m1 m2 Q]: started with the same state of the random source (the
    clocks may differ), whenever both [m1] and [m2] return, the results are
    related by [Q] and the random source is left in the same state. *)

Section Relational.
Context {R : RandomSource}.

Definition agree {A} (m1 m2 : M world A) (Q : A -> A -> Prop) : Prop :=
  forall w1 w2 a1 a2 w1' w2',
    seed_state w1 = seed_state w2 ->
    m1 w1 = (Ok a1, w1') -> m2 w2 = (Ok a2, w2') ->
    Q a1 a2 /\ seed_state w1' = seed_state w2'.

End Relational.

(** The record with its timestamp blanked: everything the clock has no
    part in. *)
Definition blank_timestamp (r : activity) : activity :=
  {| timestamp := EmptyString;
     user_id := user_id r; user_name := user_name r; action := action r;
     department := department r; status := status r;
     response_time := response_time r; ip_address := ip_address r;
     user_agent := user_agent r; location := location r;
     session_duration := session_duration r |}.

(** The lines [insert_data] prints after the helper came back with [outcome]. *)
Definition report (outcome : result (nat * list bulk_error)) : list string :=
  match outcome with
  | Ok (success, failed) =>
      ("Successfully inserted " +:+ str_int (Z.of_nat success) +:+ " documents")
      :: match failed with
         | [] => []
         | _ => ["Failed to insert " +:+ str_int (Z.of_nat (length failed))
                 +:+ " documents"]
         end
  | Err e => ["Error during bulk insert: " +:+ exn_msg e]
  end.

(** ** Worlds for traced runs *)

(** The clock reads 2024-05-08T12:00:00.000250; the draws to come pick the
    second user, the third location, [days=7], [hours=23], [minutes=59],
    the fifth action, the second status, the fraction [1/2], the octets
    [1 + 10] and [1 + 0], and the duration [60 + 100]. *)
Definition demo_world : @world TapeSource :=
  @Build_world TapeSource (datetime_of 2024 5 8 12 0 0 250)
    [1; 2; 7; 23; 59; 4; 1; 2 ^ 52; 10; 255; 100].

(** The same seed, read one second later. *)
Definition later_world : @world TapeSource :=
  @Build_world TapeSource (datetime_of 2024 5 8 12 0 1 250)
    [1; 2; 7; 23; 59; 4; 1; 2 ^ 52; 10; 255; 100].

(** A cluster on which [INDEX_NAME] has been created. *)
Definition provisioned_cluster : es_world :=
  snd (create_index_if_not_exists INDEX_NAME fresh_cluster).

(** The run of [generate_sample_data(1)] from [demo_world], evaluated. *)
Definition demo_one : result (list activity) * @world TapeSource :=
  Eval vm_compute in @generate_sample_data TapeSource 1 demo_world.

(** The same run from [later_world], evaluated. *)
Definition later_one : result (list activity) * @world TapeSource :=
  Eval vm_compute in @generate_sample_data TapeSource 1 later_world.

(** The run of [insert_data] on [mixed_batch], evaluated. *)
Definition mixed_run : result (option BulkResult) * es_world :=
  Eval vm_compute in
    insert_data (helpers_bulk accepts_ip) INDEX_NAME mixed_batch provisioned_cluster.

(** One action of the batch, as [insert_data] prepares it. *)
Definition action_for (index_name : string) (doc : activity) : bulk_action :=
  {| _index := index_name; _source := doc |}.

(** ** The connection and the main function *)

(** The newline of ["\n..."]. *)
Definition NL : string := String "010" EmptyString.

Section Main.
Context {R : RandomSource}.

(** The state [main] runs in: the clock and the random source of the
    generator, the cluster and the console of the loader. *)
Record process := { gen_state : world; es_state : es_world }.

Definition lift_gen {A} (m : M world A) : M process A :=
  fun p => let '(r, w) := m (gen_state p) in
           (r, {| gen_state := w; es_state := es_state p |}).

Definition lift_es {A} (m : M es_world A) : M process A :=
  fun p => let '(r, s) := m (es_state p) in
           (r, {| gen_state := gen_state p; es_state := s |}).

(** What [main] reaches outside of the functions embedded above: the
    liveness check [es.ping()], [es.info()['cluster_name']], the bulk helper,
    [es.indices.refresh] and the two reporting functions [search_data] and
    [perform_aggregations], which print what the cluster answers. *)
Variable ping : es_world -> bool.
Variable info_cluster_name : M es_world string.
Variable bulk : list bulk_action -> M es_world (nat * list bulk_error).
Variable indices_refresh : string -> M es_world unit.
Variable search_data : string -> M es_world unit.
Variable perform_aggregations : string -> M es_world unit.

Definition connect_to_elasticsearch : M es_world unit :=
  fun s =>
    if ping s
    then (print "Connected to Elasticsearch successfully!";;;
          name <- info_cluster_name;;
          print ("Cluster info: " +:+ name))%py s
    else raise (Raise ConnectionError "Could not connect to Elasticsearch") s.

Definition main : M process unit :=
  try_except
    (lift_es connect_to_elasticsearch;;;
     lift_es (create_index_if_not_exists INDEX_NAME);;;
     lift_es (print (NL +:+ "Generating sample data..."));;;
     sample_data <- lift_gen (generate_sample_data 150);;
     lift_es (print "Inserting data into Elasticsearch...");;;
     lift_es (insert_data bulk INDEX_NAME sample_data);;;
     lift_es (indices_refresh INDEX_NAME);;;
     lift_es (search_data INDEX_NAME);;;
     lift_es (perform_aggregations INDEX_NAME);;;
     lift_es (print (NL +:+ "=== ELASTICSEARCH OPERATIONS COMPLETED SUCCESSFULLY ===")))%py
    (fun e => lift_es (print ("Error: " +:+ exn_msg e))).

End Main.

(** [f] leaves the indices of the cluster as they are, whether it returns
    or raises. *)
Definition quiet {A} (f : M es_world A) : Prop :=
  forall s, cluster (snd (f s)) = cluster s.

(** The process [main] starts from: a world of the generator and a state of
    the cluster and the console. *)
Definition demo_process : @process TapeSource :=
  {| gen_state := demo_world; es_state := fresh_cluster |}.

(** ** Checks run over finite ranges *)

(** [f] holds of the [fuel] integers from [r] on. *)
Fixpoint all_from (fuel : nat) (r : Z) (f : Z -> bool) : bool :=
  match fuel with
  | O => true
  | S fuel' => f r && all_from fuel' (r + 1) f
  end.

(** The month and day of day [n] (from 0) of a year, as [_ord2ymd] finds
    them: an estimate of the month that is corrected when it is too large. *)
Definition month_day (leapyear : bool) (n : Z) : Z * Z :=
  let month := Z.shiftr (n + 50) 5 in
  let preceding :=
    table DAYS_BEFORE_MONTH month + (if (2 <? month) && leapyear then 1 else 0) in
  if n <? preceding then
    let month := month - 1 in
    let preceding :=
      preceding - (table DAYS_IN_MONTH month
                   + (if (month =? 2) && leapyear then 1 else 0)) in
    (month, n - preceding + 1)
  else (month, n - preceding + 1).

Definition in_year_ok (leapyear : bool) (n : Z) : bool :=
  let '(m, d) := month_day leapyear n in
  (1 <=? m) && (m <=? 12) && (1 <=? d)
  && (d <=? (if (m =? 2) && leapyear then 29 else table DAYS_IN_MONTH m))
  && (table DAYS_BEFORE_MONTH m + (if (2 <? m) && leapyear then 1 else 0) + d
      =? n + 1).

(** No dot in [s]. *)
Fixpoint dotless (s : string) : bool :=
  match s with
  | EmptyString => true
  | String c s' => negb (Ascii.eqb c ".") && dotless s'
  end.

Definition octet_ok (v : Z) : bool := octet (str_int v) && dotless (str_int v).

(** * Reasoning about monadic code *)

Lemma returns_ret {S A} (a : A) (s : S) (P : A -> S -> Prop) :
  P a s -> returns (ret a) s P.
Proof. intros HP. exists a, s. split; [reflexivity | exact HP]. Qed.

Lemma returns_bind {S A B} (m : M S A) (k : A -> M S B) s (P : B -> S -> Prop) :
  returns m s (fun a s' => returns (k a) s' P) -> returns (bind m k) s P.
Proof.
  intros (a & s' & Hm & b & s'' & Hk & HP).
  exists b, s''. split; [| exact HP]. unfold bind. rewrite Hm. exact Hk.
Qed.

Lemma returns_weaken {S A} (m : M S A) s (P Q : A -> S -> Prop) :
  returns m s P -> (forall a s', P a s' -> Q a s') -> returns m s Q.
Proof. intros (a & s' & Hm & HP) HPQ. exists a, s'. auto. Qed.

Lemma datetime_add_returns {S} (t : datetime) d (s : S) (P : datetime -> S -> Prop) :
  0 <= t + d < DATETIME_END -> P (t + d) s -> returns (datetime_add t d) s P.
Proof.
  intros Hr HP. exists (t + d), s. split; [| exact HP].
  unfold datetime_add.
  destruct (Z.leb_spec 0 (t + d)); [| lia].
  destruct (Z.ltb_spec (t + d) DATETIME_END); [reflexivity | lia].
Qed.

Section RandomFacts.
Context {R : RandomSource}.

Lemma draw_returns {A} (f : rng -> A * rng) (w : world) (P : A -> world -> Prop) :
  (forall w', clock w' = clock w -> seed_state w' = snd (f (seed_state w)) ->
              P (fst (f (seed_state w))) w') ->
  returns (draw f) w P.
Proof.
  intros HP. unfold returns, draw.
  destruct (f (seed_state w)) as [a g] eqn:Hf. simpl in HP.
  eexists _, _. split; [reflexivity |]. apply HP; reflexivity.
Qed.

Lemma choice_returns {A} (seq : list A) (w : world) (P : A -> world -> Prop) :
  seq <> [] ->
  (forall x w', x ∈ seq -> clock w' = clock w -> P x w') ->
  returns (choice seq) w P.
Proof.
  intros Hne HP. unfold choice.
  destruct seq as [|x0 seq']; [congruence |].
  set (seq := x0 :: seq') in *.
  replace (Nat.eqb (length seq) 0) with false by reflexivity.
  apply returns_bind, draw_returns. intros w' Hclock _.
  pose proof (randbelow_range (Z.of_nat (length seq)) (seed_state w)) as Hi.
  destruct (seq !! Z.to_nat (fst (randbelow (Z.of_nat (length seq)) (seed_state w))))
    as [x|] eqn:Hx.
  - apply returns_ret, HP; [| exact Hclock].
    apply list_elem_of_lookup. eauto.
  - apply lookup_ge_None in Hx. subst seq. simpl length in *. lia.
Qed.

Lemma randint_returns (a b : Z) (w : world) (P : Z -> world -> Prop) :
  a <= b ->
  (forall i w', a <= i <= b -> clock w' = clock w -> P i w') ->
  returns (randint a b) w P.
Proof.
  intros Hab HP. unfold randint.
  destruct (Z.ltb_spec 0 (b + 1 - a)); [| lia].
  apply returns_bind, draw_returns. intros w' Hclock _.
  pose proof (randbelow_range (b + 1 - a) (seed_state w)) as Hi.
  apply returns_ret, HP; [lia | exact Hclock].
Qed.

End RandomFacts.

(** * Signs of binary64 results *)

Lemma iter_pos_preserves {A} (f : A -> A) (P : A -> Prop) :
  (forall x, P x -> P (f x)) -> forall p x, P x -> P (SpecFloat.iter_pos f p x).
Proof.
  intros Hf. induction p as [p IH|p IH|]; intros x Hx; simpl; auto.
Qed.

Lemma shr_1_nonneg mrs : 0 <= shr_m mrs -> 0 <= shr_m (shr_1 mrs).
Proof.
  destruct mrs as [m r s]. destruct m as [|[p|p|]|p]; simpl; lia.
Qed.

Lemma shr_nonneg mrs e n : 0 <= shr_m mrs -> 0 <= shr_m (fst (shr mrs e n)).
Proof.
  intros Hm. destruct n as [|p|p]; simpl; auto.
  apply iter_pos_preserves; [apply shr_1_nonneg | exact Hm].
Qed.

Lemma shr_fexp_nonneg m e l :
  0 <= m -> 0 <= shr_m (fst (shr_fexp prec emax m e l)).
Proof.
  intros Hm. unfold shr_fexp. apply shr_nonneg.
  destruct l as [|[| |]]; exact Hm.
Qed.

Lemma round_nearest_even_nonneg m l : 0 <= m -> 0 <= round_nearest_even m l.
Proof.
  intros Hm. destruct l as [|[| |]]; simpl; try lia.
  destruct (Z.even m); lia.
Qed.

Lemma binary_round_aux_sign s m e l :
  0 <= m -> has_sign s (binary_round_aux prec emax s m e l).
Proof.
  intros Hm. unfold binary_round_aux.
  pose proof (shr_fexp_nonneg m e l Hm) as H1.
  destruct (shr_fexp prec emax m e l) as [mrs' e'] eqn:E1. simpl in H1.
  pose proof (round_nearest_even_nonneg _ (loc_of_shr_record mrs') H1) as H2.
  pose proof (shr_fexp_nonneg _ e' loc_Exact H2) as H3.
  destruct (shr_fexp prec emax _ e' loc_Exact) as [mrs'' e''] eqn:E2. simpl in H3.
  destruct (shr_m mrs'') as [|p|p]; simpl; [reflexivity | | lia].
  destruct (e'' <=? emax - prec); reflexivity.
Qed.

Lemma binary_round_sign s m e : has_sign s (binary_round prec emax s m e).
Proof.
  unfold binary_round. destruct (shl_align _ _ _) as [mz ez].
  apply binary_round_aux_sign. lia.
Qed.

Lemma binary_normalize_nonneg k e :
  0 <= k -> has_sign false (binary_normalize prec emax k e false).
Proof.
  intros Hk. destruct k as [|p|p]; simpl; [reflexivity | | lia].
  apply binary_round_sign.
Qed.

Lemma float_of_ratio_sign s n d : has_sign s (float_of_ratio s n d).
Proof.
  unfold float_of_ratio, SFdiv_core_binary.
  set (m' := match _ with Z0 => Zpos n | Zpos _ => _ | Zneg _ => 0 end).
  assert (0 <= m') as Hm'.
  { subst m'. destruct (_ - _) as [|p|p]; try lia. apply Z.shiftl_nonneg. lia. }
  pose proof (Z_div_mod m' (Zpos d) eq_refl) as Hdiv.
  destruct (Z.div_eucl m' (Zpos d)) as [q r].
  apply binary_round_aux_sign. destruct Hdiv as [Heq Hr]. nia.
Qed.

Lemma fmul_finite_pos_sign m e y :
  has_sign false y -> has_sign false (fmul (S754_finite false m e) y).
Proof.
  destruct y as [s|s| |s my ey]; simpl; intros Hy; subst; try reflexivity; try contradiction.
  apply binary_round_aux_sign. lia.
Qed.

Lemma fadd_finite_pos_sign m e y :
  has_sign false y -> has_sign false (fadd (S754_finite false m e) y).
Proof.
  destruct y as [s|s| |s my ey]; simpl; intros Hy; subst; try reflexivity; try contradiction.
  unfold fadd, SFadd. simpl cond_Zopp.
  apply binary_normalize_nonneg. lia.
Qed.

Lemma py_round_sign s x ndigits : has_sign s x -> has_sign s (py_round x ndigits).
Proof.
  destruct x as [s'|s'| |s' m e]; simpl; auto.
  intros ->. destruct e as [|p|p]; simpl; auto.
  destruct (round_half_even _ _) as [|n|n]; simpl; auto.
  apply float_of_ratio_sign.
Qed.


(** * Timestamps read back *)

Lemma digit_value_digit_char (d : Z) :
  0 <= d <= 9 -> digit_value (digit_char d) = Some d.
Proof.
  intros Hd.
  assert (d = 0 \/ d = 1 \/ d = 2 \/ d = 3 \/ d = 4 \/ d = 5 \/ d = 6 \/ d = 7
          \/ d = 8 \/ d = 9) as Hcases by lia.
  repeat destruct Hcases as [-> | Hcases]; try reflexivity.
  subst. reflexivity.
Qed.

Lemma zero_padded_app (w : nat) :
  forall n acc rest, zero_padded w n acc +:+ rest = zero_padded w n (acc +:+ rest).
Proof.
  induction w as [|w IH]; intros n acc rest; simpl; [reflexivity |].
  rewrite IH. reflexivity.
Qed.

Lemma pad_app (w : nat) n rest : pad w n +:+ rest = zero_padded w n rest.
Proof. unfold pad. rewrite zero_padded_app. reflexivity. Qed.

Lemma take_digits_snoc (w : nat) :
  forall s a,
    take_digits (S w) s a
    = match take_digits w s a with
      | Some (v, String c rest) =>
          match digit_value c with
          | Some d => Some (v * 10 + d, rest)
          | None => None
          end
      | _ => None
      end.
Proof.
  induction w as [|w IH]; intros s a.
  - simpl. destruct s as [|c s]; [reflexivity |].
    destruct (digit_value c); reflexivity.
  - destruct s as [|c s]; [reflexivity |].
    change (take_digits (S (S w)) (String c s) a)
      with (match digit_value c with
            | Some d => take_digits (S w) s (a * 10 + d)
            | None => None
            end).
    change (take_digits (S w) (String c s) a)
      with (match digit_value c with
            | Some d => take_digits w s (a * 10 + d)
            | None => None
            end).
    destruct (digit_value c) as [d|]; [apply IH | reflexivity].
Qed.

Lemma take_digits_zero_padded (w : nat) :
  forall n rest a,
    0 <= n < 10 ^ Z.of_nat w ->
    take_digits w (zero_padded w n rest) a = Some (a * 10 ^ Z.of_nat w + n, rest).
Proof.
  induction w as [|w IH]; intros n rest a Hn.
  - simpl in *. f_equal. f_equal. lia.
  - rewrite take_digits_snoc.
    change (zero_padded (S w) n rest)
      with (zero_padded w (n / 10) (String (digit_char (n mod 10)) rest)).
    rewrite Nat2Z.inj_succ, Z.pow_succ_r in Hn by lia.
    rewrite IH by (split; [apply Z.div_pos; lia | apply Z.div_lt_upper_bound; lia]).
    rewrite digit_value_digit_char by (pose proof (Z.mod_pos_bound n 10); lia).
    f_equal. f_equal.
    rewrite Nat2Z.inj_succ, Z.pow_succ_r by lia.
    pose proof (Z.div_mod n 10 ltac:(lia)). lia.
Qed.

Lemma take_digits_pad (w : nat) n rest :
  0 <= n < 10 ^ Z.of_nat w ->
  take_digits w (pad w n +:+ rest) 0 = Some (n, rest).
Proof.
  intros Hn. rewrite pad_app, take_digits_zero_padded by exact Hn. reflexivity.
Qed.

(** ** The calendar: the year by arithmetic, the day within the year by evaluation *)

Lemma all_from_spec (f : Z -> bool) (fuel : nat) :
  forall r, all_from fuel r f = true ->
            forall x, r <= x < r + Z.of_nat fuel -> f x = true.
Proof.
  induction fuel as [|fuel IH]; intros r Hall x Hx; [lia |].
  simpl in Hall. apply andb_prop in Hall. destruct Hall as [Hr Hrest].
  destruct (Z.eq_dec x r) as [-> | Hne]; [exact Hr |].
  apply (IH (r + 1) Hrest). lia.
Qed.

Lemma in_year_checked :
  all_from 365 0 (in_year_ok false) && all_from 365 0 (in_year_ok true) = true.
Proof. vm_cast_no_check (eq_refl true). Qed.

Lemma in_year_ok_all (leapyear : bool) (n : Z) :
  0 <= n < 365 -> in_year_ok leapyear n = true.
Proof.
  intros Hn. pose proof in_year_checked as H.
  apply andb_prop in H. destruct H as [Hf Ht].
  destruct leapyear;
    [apply (all_from_spec _ _ 0 Ht) | apply (all_from_spec _ _ 0 Hf)]; lia.
Qed.

Lemma ord2ymd_unfold (N : Z) :
  ord2ymd (N + 1)
  = let n400 := N / DI400Y in
    let r1 := N mod DI400Y in
    let n100 := r1 / DI100Y in
    let r2 := r1 mod DI100Y in
    let n4 := r2 / DI4Y in
    let r3 := r2 mod DI4Y in
    let n1 := r3 / 365 in
    let n := r3 mod 365 in
    let year := n400 * 400 + 1 + n100 * 100 + n4 * 4 + n1 in
    if (n1 =? 4) || (n100 =? 4) then (year - 1, 12, 31)
    else
      let '(m, d) :=
        month_day ((n1 =? 3) && (negb (n4 =? 24) || (n100 =? 3))) n in
      (year, m, d).
Proof.
  unfold ord2ymd, month_day. replace (N + 1 - 1) with N by lia. cbv zeta.
  destruct (_ || _); [reflexivity |].
  destruct (_ <? _); reflexivity.
Qed.

Lemma days_before_year_decomposed (a b c d : Z) :
  0 <= b <= 3 -> 0 <= c <= 24 -> 0 <= d <= 3 ->
  days_before_year (a * 400 + 1 + b * 100 + c * 4 + d)
  = a * 146097 + b * 36524 + c * 1461 + d * 365.
Proof.
  intros Hb Hc Hd. unfold days_before_year. cbv zeta.
  Z.div_mod_to_equations. lia.
Qed.

Lemma is_leap_decomposed (a b c d : Z) :
  0 <= b <= 3 -> 0 <= c <= 24 -> 0 <= d <= 3 ->
  is_leap (a * 400 + 1 + b * 100 + c * 4 + d)
  = (d =? 3) && (negb (c =? 24) || (b =? 3)).
Proof.
  intros Hb Hc Hd. unfold is_leap.
  destruct (Z.eqb_spec d 3) as [-> | Hd3];
  destruct (Z.eqb_spec c 24) as [-> | Hc24];
  destruct (Z.eqb_spec b 3) as [-> | Hb3]; simpl;
  repeat match goal with
         | |- context [?x mod ?y =? 0] =>
             destruct (Z.eqb_spec (x mod y) 0)
         end; simpl; try reflexivity;
  exfalso; Z.div_mod_to_equations; lia.
Qed.

Lemma ord2ymd_spec (n : Z) :
  1 <= n <= MAXORDINAL ->
  exists y m d,
    ord2ymd n = (y, m, d) /\
    1 <= y <= 9999 /\ 1 <= m <= 12 /\ 1 <= d <= days_in_month y m /\
    ymd2ord y m d = n.
Proof.
  intros Hn. unfold MAXORDINAL in Hn.
  replace n with (n - 1 + 1) by lia.
  remember (n - 1) as N eqn:HN. assert (0 <= N <= 3652058) as HNr by lia.
  clear HN Hn n.
  rewrite ord2ymd_unfold. unfold DI400Y, DI100Y, DI4Y. cbv zeta.
  pose proof (Z.div_mod N 146097 ltac:(discriminate)) as E1.
  pose proof (Z.mod_pos_bound N 146097 ltac:(reflexivity)) as B1.
  set (a := N / 146097) in *. set (r1 := N mod 146097) in *.
  pose proof (Z.div_mod r1 36524 ltac:(discriminate)) as E2.
  pose proof (Z.mod_pos_bound r1 36524 ltac:(reflexivity)) as B2.
  set (b := r1 / 36524) in *. set (r2 := r1 mod 36524) in *.
  pose proof (Z.div_mod r2 1461 ltac:(discriminate)) as E3.
  pose proof (Z.mod_pos_bound r2 1461 ltac:(reflexivity)) as B3.
  set (c := r2 / 1461) in *. set (r3 := r2 mod 1461) in *.
  pose proof (Z.div_mod r3 365 ltac:(discriminate)) as E4.
  pose proof (Z.mod_pos_bound r3 365 ltac:(reflexivity)) as B4.
  set (d0 := r3 / 365) in *. set (k := r3 mod 365) in *.
  clearbody a r1 b r2 c r3 d0 k.
  assert (0 <= a <= 24 /\ 0 <= b <= 4 /\ 0 <= c <= 24 /\ 0 <= d0 <= 4)
    as (Ha & Hb & Hc & Hd) by lia.
  destruct (Z.eqb_spec d0 4) as [-> | Hd4]; simpl orb.
  { (* the last day of a leap year that ends a 4-year group *)
    exists (a * 400 + 1 + b * 100 + c * 4 + 4 - 1), 12, 31.
    split; [reflexivity |].
    assert (k = 0) by lia. assert (c <= 23) by lia. assert (b <= 3) by lia.
    replace (a * 400 + 1 + b * 100 + c * 4 + 4 - 1)
      with (a * 400 + 1 + b * 100 + (c + 1) * 4 + (-1)) by lia.
    unfold ymd2ord, days_in_month, days_before_month, days_before_year, is_leap.
    cbv zeta. simpl table. simpl Z.eqb. simpl Z.ltb. simpl andb.
    repeat match goal with
           | |- context [?x mod ?y =? 0] => destruct (Z.eqb_spec (x mod y) 0)
           end; simpl;
      change (table DAYS_IN_MONTH 12) with 31;
      change (table DAYS_BEFORE_MONTH 12) with 334;
      (split; [lia |]); (split; [lia |]); (split; [lia |]);
      Z.div_mod_to_equations; lia. }
  destruct (Z.eqb_spec b 4) as [-> | Hb4].
  { (* the last day of a 400-year cycle *)
    exists (a * 400 + 1 + 4 * 100 + c * 4 + d0 - 1), 12, 31.
    split; [reflexivity |].
    assert (r2 = 0) by lia. assert (c = 0) by lia. assert (d0 = 0) by lia.
    assert (k = 0) by lia. subst c d0 k r2.
    unfold ymd2ord, days_in_month, days_before_month, days_before_year, is_leap.
    cbv zeta. simpl table. simpl Z.eqb. simpl Z.ltb. simpl andb.
    repeat match goal with
           | |- context [?x mod ?y =? 0] => destruct (Z.eqb_spec (x mod y) 0)
           end; simpl;
      change (table DAYS_IN_MONTH 12) with 31;
      change (table DAYS_BEFORE_MONTH 12) with 334;
      (split; [lia |]); (split; [lia |]); (split; [lia |]);
      Z.div_mod_to_equations; lia. }
  assert (0 <= b <= 3) as Hb' by lia. assert (0 <= d0 <= 3) as Hd' by lia.
  set (leapyear := (d0 =? 3) && (negb (c =? 24) || (b =? 3))).
  pose proof (in_year_ok_all leapyear k B4) as Hok. unfold in_year_ok in Hok.
  destruct (month_day leapyear k) as [m d].
  repeat (apply andb_prop in Hok; destruct Hok as [Hok ?]).
  exists (a * 400 + 1 + b * 100 + c * 4 + d0), m, d.
  split; [reflexivity |].
  unfold ymd2ord, days_in_month, days_before_month.
  rewrite days_before_year_decomposed, is_leap_decomposed by assumption.
  fold leapyear.
  repeat split; try lia.
Qed.

(** ** [fromisoformat] undoes [isoformat] *)

Lemma append_nil_r_local (s : string) : s +:+ EmptyString = s.
Proof.
  induction s as [|c s IH]; [reflexivity |].
  change (String c s +:+ EmptyString) with (String c (s +:+ EmptyString)).
  f_equal. exact IH.
Qed.

Lemma append_char (c : ascii) (rest : string) :
  String c EmptyString +:+ rest = String c rest.
Proof. reflexivity. Qed.

Ltac width_bound :=
  match goal with
  | |- context [10 ^ Z.of_nat ?w] =>
      let v := eval vm_compute in (10 ^ Z.of_nat w) in
      change (10 ^ Z.of_nat w) with v; unfold US_PER_SECOND in *; lia
  end.

Lemma mod_60_of_3600 (z : Z) : z mod 60 = (z mod 3600) mod 60.
Proof. Z.div_mod_to_equations. lia. Qed.

Lemma bind_Some {A B} (a : A) (k : A -> option B) : (Some a ≫= k) = k a.
Proof. reflexivity. Qed.

Lemma bind_Some_pair {A B C} (a : A) (b : B) (k : A -> B -> option C) :
  (Some (a, b) ≫= (fun '(x, y) => k x y)) = k a b.
Proof. reflexivity. Qed.

Lemma expect_here (c : ascii) (rest : string) : expect c (String c rest) = Some rest.
Proof. unfold expect. rewrite Ascii.eqb_refl. reflexivity. Qed.

Lemma fromisoformat_isoformat (t : datetime) :
  datetime_valid t -> fromisoformat (isoformat t) = Some t.
Proof.
  intros Ht. unfold datetime_valid, DATETIME_END in Ht.
  assert (0 < US_PER_DAY) as Hday by reflexivity.
  assert (1 <= t / US_PER_DAY + 1 <= MAXORDINAL) as Hord.
  { split; [pose proof (Z.div_pos t US_PER_DAY); lia |].
    apply Z.lt_succ_r. rewrite <- Z.add_1_r. apply Z.add_lt_mono_r.
    apply Z.div_lt_upper_bound; lia. }
  destruct (ord2ymd_spec _ Hord) as (y & m & d & Hymd & Hy & Hm & Hd & Hback).
  unfold isoformat. rewrite Hymd.
  pose proof (Z.mod_pos_bound t US_PER_DAY Hday) as Hus_day.
  set (us_of_day := t mod US_PER_DAY) in *.
  assert (0 <= us_of_day / US_PER_SECOND < 86400) as Hsec.
  { unfold US_PER_DAY, US_PER_SECOND in *. split.
    - apply Z.div_pos; lia.
    - apply Z.div_lt_upper_bound; lia. }
  set (sec_of_day := us_of_day / US_PER_SECOND) in *.
  pose proof (Z.mod_pos_bound us_of_day US_PER_SECOND ltac:(reflexivity)) as Hus.
  set (us := us_of_day mod US_PER_SECOND) in *.
  assert (0 <= sec_of_day / 3600 < 24) as Hhh.
  { split; [apply Z.div_pos; lia | apply Z.div_lt_upper_bound; lia]. }
  pose proof (Z.mod_pos_bound sec_of_day 3600 ltac:(reflexivity)) as Hrem.
  assert (0 <= sec_of_day mod 3600 / 60 < 60) as Hmm.
  { split; [apply Z.div_pos; lia | apply Z.div_lt_upper_bound; lia]. }
  pose proof (Z.mod_pos_bound sec_of_day 60 ltac:(reflexivity)) as Hss.
  assert (1 <= days_in_month y m <= 31) as Hdim.
  { unfold days_in_month.
    assert (m = 1 \/ m = 2 \/ m = 3 \/ m = 4 \/ m = 5 \/ m = 6 \/ m = 7 \/ m = 8
            \/ m = 9 \/ m = 10 \/ m = 11 \/ m = 12) as Hcases by lia.
    repeat destruct Hcases as [-> | Hcases]; subst;
      destruct (is_leap y); vm_compute; split; discriminate. }
  unfold fromisoformat. rewrite !append_char.
  rewrite take_digits_pad by width_bound. rewrite bind_Some_pair, expect_here, bind_Some.
  rewrite take_digits_pad by width_bound. rewrite bind_Some_pair, expect_here, bind_Some.
  rewrite take_digits_pad by width_bound. rewrite bind_Some_pair, expect_here, bind_Some.
  rewrite take_digits_pad by width_bound. rewrite bind_Some_pair, expect_here, bind_Some.
  rewrite take_digits_pad by width_bound. rewrite bind_Some_pair, expect_here, bind_Some.
  rewrite take_digits_pad by width_bound. rewrite bind_Some_pair.
  assert (parse_fraction (if us =? 0 then EmptyString else String "." (pad 6 us))
          = Some us) as ->.
  { destruct (Z.eqb_spec us 0) as [-> | Hne]; [reflexivity |].
    rewrite <- (append_nil_r_local (pad 6 us)).
    unfold parse_fraction.
    rewrite take_digits_pad by width_bound. reflexivity. }
  rewrite bind_Some.
  assert ((1 <=? y) && (1 <=? m) && (m <=? 12) && (1 <=? d)
          && (d <=? days_in_month y m) && (sec_of_day / 3600 <? 24)
          && (sec_of_day mod 3600 / 60 <? 60) && (sec_of_day mod 60 <? 60) = true)
    as ->.
  { repeat (apply andb_true_intro; split);
      try (apply Z.leb_le; lia); apply Z.ltb_lt; lia. }
  f_equal. unfold datetime_of. rewrite Hback.
  assert (t = US_PER_DAY * (t / US_PER_DAY) + us_of_day) as E1
    by (subst us_of_day; apply Z.div_mod; lia).
  assert (us_of_day = US_PER_SECOND * sec_of_day + us) as E2
    by (subst us sec_of_day; apply Z.div_mod; discriminate).
  pose proof (Z.div_mod sec_of_day 3600 ltac:(discriminate)) as E3.
  pose proof (Z.div_mod (sec_of_day mod 3600) 60 ltac:(discriminate)) as E4.
  pose proof (mod_60_of_3600 sec_of_day) as E5.
  clearbody us sec_of_day us_of_day.
  unfold US_PER_DAY, US_PER_SECOND in *. lia.
Qed.

(** * Generated records *)

Lemma split_dots_dotless (s : string) : dotless s = true -> split_dots s = [s].
Proof.
  induction s as [|c s IH]; simpl; [reflexivity |].
  intros H. apply andb_prop in H. destruct H as [Hc Hs].
  destruct (Ascii.eqb c "."); [discriminate |].
  rewrite (IH Hs). reflexivity.
Qed.

Lemma split_dots_app (s rest : string) :
  dotless s = true ->
  split_dots (s +:+ String "." rest) = s :: split_dots rest.
Proof.
  induction s as [|c s IH]; [reflexivity |].
  change (String c s +:+ String "." rest) with (String c (s +:+ String "." rest)).
  simpl. intros H. apply andb_prop in H. destruct H as [Hc Hs].
  destruct (Ascii.eqb c "."); [discriminate |].
  rewrite (IH Hs). reflexivity.
Qed.

Lemma octets_checked : all_from 256 0 octet_ok = true.
Proof. vm_cast_no_check (eq_refl true). Qed.

Lemma octet_str_int (v : Z) :
  0 <= v <= 255 -> octet (str_int v) = true /\ dotless (str_int v) = true.
Proof.
  intros Hv. apply andb_prop.
  apply (all_from_spec octet_ok _ 0 octets_checked). lia.
Qed.

Lemma private_address_valid (a b : Z) :
  1 <= a <= 255 -> 1 <= b <= 255 ->
  valid_ipv4 ("192.168." +:+ str_int a +:+ "." +:+ str_int b) = true.
Proof.
  intros Ha Hb.
  destruct (octet_str_int a ltac:(lia)) as [Hoa Hda].
  destruct (octet_str_int b ltac:(lia)) as [Hob Hdb].
  change ("192.168." +:+ str_int a +:+ "." +:+ str_int b)
    with ("192" +:+ String "." ("168" +:+ String "."
            (str_int a +:+ String "." (str_int b)))).
  unfold valid_ipv4.
  rewrite !split_dots_app, (split_dots_dotless _ Hdb) by (reflexivity || assumption).
  rewrite Hoa, Hob. reflexivity.
Qed.

Section GeneratorFacts.
Context {R : RandomSource}.

Lemma random_returns (w : world) (P : float -> world -> Prop) :
  (forall x w', has_sign false x -> clock w' = clock w -> P x w') ->
  returns random w P.
Proof.
  intros HP. unfold random. apply returns_bind, draw_returns.
  intros w' Hclock _. apply returns_ret, HP; [| exact Hclock].
  apply binary_normalize_nonneg.
  apply (random_bits53_range (seed_state w)).
Qed.

Lemma uniform_returns (a b : float) ma ea mc ec (w : world)
      (P : float -> world -> Prop) :
  a = S754_finite false ma ea ->
  fsub b a = S754_finite false mc ec ->
  (forall x w', has_sign false x -> clock w' = clock w -> P x w') ->
  returns (uniform a b) w P.
Proof.
  intros Ha Hc HP. unfold uniform. apply returns_bind, random_returns.
  intros r w' Hr Hclock. apply returns_ret, HP; [| exact Hclock].
  rewrite Hc, Ha. apply fadd_finite_pos_sign, fmul_finite_pos_sign, Hr.
Qed.

Lemma sample_record_returns (base_time : datetime) (w : world) :
  0 <= base_time -> base_time + timedelta 7 23 59 < DATETIME_END ->
  returns (sample_record base_time) w
          (fun r w' => well_generated base_time r /\ clock w' = clock w).
Proof.
  intros Hlo Hhi. unfold sample_record.
  apply returns_bind, choice_returns; [discriminate |]. intros user w1 Huser C1.
  apply returns_bind, choice_returns; [discriminate |]. intros loc w2 Hloc C2.
  apply returns_bind, randint_returns; [lia |]. intros days w3 Hdays C3.
  apply returns_bind, randint_returns; [lia |]. intros hours w4 Hhours C4.
  apply returns_bind, randint_returns; [lia |]. intros minutes w5 Hminutes C5.
  apply returns_bind, datetime_add_returns.
  { unfold timedelta, US_PER_SECOND in *. lia. }
  apply returns_bind, choice_returns; [discriminate |]. intros act w6 Hact C6.
  apply returns_bind, choice_returns; [discriminate |]. intros st w7 Hst C7.
  apply returns_bind.
  eapply uniform_returns; [vm_compute; reflexivity | vm_compute; reflexivity |].
  intros x w8 Hx C8.
  apply returns_bind, randint_returns; [lia |]. intros a w9 Ha C9.
  apply returns_bind, randint_returns; [lia |]. intros b w10 Hb C10.
  apply returns_bind, randint_returns; [lia |]. intros dur w11 Hdur C11.
  apply returns_ret. split; [| congruence].
  constructor; simpl; eauto 10.
  apply py_round_sign, Hx.
Qed.

Lemma for_range_returns (I : activity -> Prop) (body : M world activity) n :
  forall (sample_data : list activity) (w : world),
    (forall w0, clock w0 = clock w ->
                returns body w0 (fun r w' => I r /\ clock w' = clock w0)) ->
    returns (for_range n body sample_data) w
            (fun out w' => exists recs,
                 out = (sample_data ++ recs)%list /\ length recs = n /\
                 Forall I recs /\ clock w' = clock w).
Proof.
  induction n as [|n IH]; intros acc w Hbody; simpl.
  - apply returns_ret. exists []. rewrite app_nil_r. auto.
  - apply returns_bind.
    eapply returns_weaken; [apply Hbody; reflexivity |].
    intros r w1 [Hr C1]. simpl.
    eapply returns_weaken.
    + apply IH. intros w0 C0. apply Hbody. congruence.
    + intros out w' (recs & -> & Hlen & Hall & C'). simpl.
      exists (r :: recs). rewrite <- app_assoc. simpl.
      repeat split; [congruence | constructor; assumption | congruence].
Qed.

(** Every run under a clock in range returns; the list has one record per
    round of [range(num_records)], each of them well generated. *)
Lemma generate_sample_data_returns (num_records : Z) (w : world) :
  clock_in_range (clock w) ->
  returns (generate_sample_data num_records) w
          (fun out w' =>
             length out = Z.to_nat num_records /\
             Forall (well_generated (clock w - timedelta 7 0 0)) out /\
             clock w' = clock w).
Proof.
  intros [Hlo Hhi]. unfold generate_sample_data.
  apply returns_bind. exists (clock w), w. split; [reflexivity |].
  apply returns_bind. unfold datetime_sub.
  apply datetime_add_returns.
  { unfold timedelta, US_PER_SECOND in *. lia. }
  replace (clock w + - timedelta 7 0 0) with (clock w - timedelta 7 0 0) by lia.
  eapply returns_weaken.
  - apply (for_range_returns (well_generated (clock w - timedelta 7 0 0))).
    intros w0 _. apply sample_record_returns;
      unfold timedelta, US_PER_SECOND in *; lia.
  - intros out w' (recs & -> & Hlen & Hall & C'). simpl. auto.
Qed.

End GeneratorFacts.

(** * Two runs from the same seed *)

Section Agreement.
Context {R : RandomSource}.

Lemma agree_ret {A} (a1 a2 : A) (Q : A -> A -> Prop) :
  Q a1 a2 -> agree (ret a1) (ret a2) Q.
Proof.
  intros HQ w1 w2 b1 b2 w1' w2' Hs H1 H2.
  inversion H1; inversion H2; subst. auto.
Qed.

Lemma agree_bind {A B} (m1 m2 : M world A) (k1 k2 : A -> M world B)
      (Q : A -> A -> Prop) (Q' : B -> B -> Prop) :
  agree m1 m2 Q ->
  (forall a1 a2, Q a1 a2 -> agree (k1 a1) (k2 a2) Q') ->
  agree (bind m1 k1) (bind m2 k2) Q'.
Proof.
  intros Hm Hk w1 w2 b1 b2 w1' w2' Hs H1 H2. unfold bind in H1, H2.
  destruct (m1 w1) as [[a1|e1] v1] eqn:E1; [| discriminate].
  destruct (m2 w2) as [[a2|e2] v2] eqn:E2; [| discriminate].
  destruct (Hm _ _ _ _ _ _ Hs E1 E2) as [HQ Hs'].
  exact (Hk _ _ HQ _ _ _ _ _ _ Hs' H1 H2).
Qed.

Lemma agree_draw {A} (f : rng -> A * rng) : agree (draw f) (draw f) eq.
Proof.
  intros w1 w2 a1 a2 w1' w2' Hs H1 H2. unfold draw in H1, H2.
  rewrite Hs in H1. destruct (f (seed_state w2)) as [a g].
  inversion H1; inversion H2; subst. auto.
Qed.

Lemma agree_raise_l {A} e (m2 : M world A) Q : agree (raise e) m2 Q.
Proof. intros w1 w2 a1 a2 w1' w2' _ H1. discriminate. Qed.

Lemma agree_choice {A} (seq : list A) : agree (choice seq) (choice seq) eq.
Proof.
  unfold choice. destruct (Nat.eqb (length seq) 0); [apply agree_raise_l |].
  eapply agree_bind; [apply agree_draw |]. intros i ? <-.
  destruct (seq !! Z.to_nat i); [apply agree_ret; reflexivity | apply agree_raise_l].
Qed.

Lemma agree_randint (a b : Z) : agree (randint a b) (randint a b) eq.
Proof.
  unfold randint. destruct (0 <? b + 1 - a); [| apply agree_raise_l].
  eapply agree_bind; [apply agree_draw |]. intros i ? <-.
  apply agree_ret. reflexivity.
Qed.

Lemma agree_uniform (a b : float) : agree (uniform a b) (uniform a b) eq.
Proof.
  unfold uniform, random.
  eapply agree_bind with (Q := eq).
  - eapply agree_bind; [apply agree_draw |]. intros k ? <-.
    apply agree_ret. reflexivity.
  - intros r ? <-. apply agree_ret. reflexivity.
Qed.

Lemma agree_datetime_add (t1 t2 : datetime) (d1 d2 : timedelta_t) :
  agree (datetime_add t1 d1) (datetime_add t2 d2) (fun _ _ => True).
Proof.
  intros w1 w2 a1 a2 w1' w2' Hs H1 H2. unfold datetime_add in H1, H2.
  destruct (_ && _) in H1; [| discriminate].
  destruct (_ && _) in H2; [| discriminate].
  inversion H1; inversion H2; subst. auto.
Qed.

Lemma agree_sample_record (t1 t2 : datetime) :
  agree (sample_record t1) (sample_record t2)
        (fun r1 r2 => blank_timestamp r1 = blank_timestamp r2).
Proof.
  unfold sample_record.
  eapply agree_bind; [apply agree_choice |]. intros user ? <-.
  eapply agree_bind; [apply agree_choice |]. intros loc ? <-.
  eapply agree_bind; [apply agree_randint |]. intros days ? <-.
  eapply agree_bind; [apply agree_randint |]. intros hours ? <-.
  eapply agree_bind; [apply agree_randint |]. intros minutes ? <-.
  eapply agree_bind; [apply agree_datetime_add |]. intros u1 u2 _.
  eapply agree_bind; [apply agree_choice |]. intros act ? <-.
  eapply agree_bind; [apply agree_choice |]. intros st ? <-.
  eapply agree_bind; [apply agree_uniform |]. intros x ? <-.
  eapply agree_bind; [apply agree_randint |]. intros a ? <-.
  eapply agree_bind; [apply agree_randint |]. intros b ? <-.
  eapply agree_bind; [apply agree_randint |]. intros dur ? <-.
  apply agree_ret. reflexivity.
Qed.

Lemma agree_for_range (body1 body2 : M world activity) n :
  agree body1 body2 (fun r1 r2 => blank_timestamp r1 = blank_timestamp r2) ->
  forall acc1 acc2,
    map blank_timestamp acc1 = map blank_timestamp acc2 ->
    agree (for_range n body1 acc1) (for_range n body2 acc2)
          (fun out1 out2 => map blank_timestamp out1 = map blank_timestamp out2).
Proof.
  intros Hbody. induction n as [|n IH]; intros acc1 acc2 Hacc; simpl.
  - apply agree_ret, Hacc.
  - eapply agree_bind; [exact Hbody |]. intros r1 r2 Hr. simpl.
    apply IH. rewrite !map_app. simpl. congruence.
Qed.

Lemma agree_generate_sample_data (num_records : Z) :
  agree (generate_sample_data num_records) (generate_sample_data num_records)
        (fun out1 out2 => map blank_timestamp out1 = map blank_timestamp out2).
Proof.
  unfold generate_sample_data.
  eapply agree_bind with (Q := fun _ _ => True).
  - intros w1 w2 a1 a2 w1' w2' Hs H1 H2.
    inversion H1; inversion H2; subst. auto.
  - intros now1 now2 _.
    eapply agree_bind; [apply agree_datetime_add |]. intros t1 t2 _.
    apply agree_for_range; [apply agree_sample_record | reflexivity].
Qed.

End Agreement.

(** * Facts about the loader *)

Lemma prepare_app (index_name : string) (data : list activity) :
  forall actions,
    prepare index_name data actions
    = (actions ++ map (fun doc => {| _index := index_name; _source := doc |}) data)%list.
Proof.
  induction data as [|doc data IH]; intros actions; simpl.
  - rewrite app_nil_r. reflexivity.
  - rewrite IH, <- app_assoc. reflexivity.
Qed.

Lemma insert_data_run bulk (index_name : string) (data : list activity) (s : es_world) :
  let actions := map (fun doc => {| _index := index_name; _source := doc |}) data in
  insert_data bulk index_name data s
  = (Ok None,
     {| cluster := cluster (snd (bulk actions s));
        stdout := (stdout (snd (bulk actions s)) ++ report (fst (bulk actions s)))%list |}).
Proof.
  simpl. unfold insert_data, bind, try_except.
  rewrite prepare_app. simpl.
  destruct (bulk _ s) as [[[success failed]|e] s1]; simpl; [| reflexivity].
  destruct failed as [|f failed]; simpl; [| rewrite <- app_assoc; reflexivity].
  reflexivity.
Qed.

Lemma create_index_if_not_exists_absent (index_name : string) (s : es_world) :
  cluster s !! index_name = None ->
  create_index_if_not_exists index_name s
  = (Ok true,
     {| cluster := <[index_name := {| body := mapping; docs := [] |}]> (cluster s);
        stdout := (stdout s ++ ["Index '" +:+ index_name +:+ "' created successfully"])%list |}).
Proof.
  intros Hnone.
  unfold create_index_if_not_exists, bind, indices_exists, indices_create.
  rewrite bool_decide_eq_false_2 by (rewrite Hnone; intros [x Hx]; discriminate).
  cbv beta iota. rewrite Hnone. reflexivity.
Qed.

Lemma create_index_if_not_exists_present (index_name : string) (s : es_world) :
  is_Some (cluster s !! index_name) ->
  create_index_if_not_exists index_name s
  = (Ok false,
     {| cluster := cluster s;
        stdout := (stdout s ++ ["Index '" +:+ index_name
                                +:+ "' already exists, skipping creation"])%list |}).
Proof.
  intros Hsome.
  unfold create_index_if_not_exists, bind, indices_exists.
  rewrite bool_decide_eq_true_2; [reflexivity | exact Hsome].
Qed.

(** * The bulk helper when every document is accepted *)

Lemma concat_chunks_fuel {A} (size : nat) (fuel : nat) :
  forall l : list A, concat (chunks_fuel fuel size l) = l.
Proof.
  induction fuel as [|fuel IH]; intros [|x l]; simpl; try reflexivity.
  - rewrite app_nil_r. reflexivity.
  - rewrite IH. apply (take_drop size (x :: l)).
Qed.

Lemma Forall_chunks_fuel {A} (P : A -> Prop) (size : nat) (fuel : nat) :
  forall l : list A, Forall P l -> Forall (Forall P) (chunks_fuel fuel size l).
Proof.
  induction fuel as [|fuel IH]; intros [|x l] Hl; simpl; try constructor; auto.
  - apply Forall_take, Hl.
  - apply IH, Forall_drop, Hl.
Qed.

Section HelperFacts.
Variable accepts : activity -> bool.

Lemma send_chunk_accepted (chunk : list bulk_action) :
  Forall (fun a => accepts (_source a) = true) chunk ->
  forall c ok errors,
    send_chunk accepts chunk c ok errors
    = (foldl (fun c a => index_doc a c) c chunk, (ok + length chunk)%nat, errors).
Proof.
  induction 1 as [|a chunk Ha Hchunk IH]; intros c ok errors; simpl.
  - rewrite Nat.add_0_r. reflexivity.
  - rewrite Ha, IH, Nat.add_succ_r. reflexivity.
Qed.

Lemma streaming_bulk_accepted (chunks : list (list bulk_action)) :
  Forall (Forall (fun a => accepts (_source a) = true)) chunks ->
  forall success s,
    streaming_bulk accepts chunks success s
    = (Ok (success + length (concat chunks))%nat,
       {| cluster := foldl (fun c a => index_doc a c) (cluster s) (concat chunks);
          stdout := stdout s |}).
Proof.
  induction 1 as [|chunk chunks Hchunk Hchunks IH]; intros success s; simpl.
  - rewrite Nat.add_0_r. destruct s; reflexivity.
  - rewrite (send_chunk_accepted chunk Hchunk). rewrite IH. simpl.
    rewrite length_app, foldl_app, Nat.add_assoc. reflexivity.
Qed.

Lemma helpers_bulk_accepted (actions : list bulk_action) (s : es_world) :
  Forall (fun a => accepts (_source a) = true) actions ->
  helpers_bulk accepts actions s
  = (Ok (length actions, []),
     {| cluster := foldl (fun c a => index_doc a c) (cluster s) actions;
        stdout := stdout s |}).
Proof.
  intros Hall. unfold helpers_bulk, bind, chunks_of.
  rewrite streaming_bulk_accepted by (apply Forall_chunks_fuel, Hall).
  rewrite concat_chunks_fuel. reflexivity.
Qed.

End HelperFacts.

(** * The generator: what every run returns *)

(** Every timestamp reads back as an instant between the base time and the
    base time plus 7 days 23 hours 59 minutes. *)
Lemma well_generated_timestamp (base_time : datetime) (r : activity) :
  0 <= base_time -> base_time + timedelta 7 23 59 < DATETIME_END ->
  well_generated base_time r ->
  exists t, fromisoformat (timestamp r) = Some t /\
            base_time <= t <= base_time + timedelta 7 23 59.
Proof.
  intros Hlo Hhi Hr.
  destruct (gen_timestamp _ _ Hr) as (days & hours & minutes & Hd & Hh & Hm & Hts).
  exists (base_time + timedelta days hours minutes).
  assert (base_time <= base_time + timedelta days hours minutes
          <= base_time + timedelta 7 23 59) as Hbounds
    by (unfold timedelta, US_PER_SECOND in *; lia).
  split; [| exact Hbounds].
  rewrite Hts. apply fromisoformat_isoformat. unfold datetime_valid. lia.
Qed.

(** C1: for every count > 0 (and a clock whose dates Python can represent),
    [generate_sample_data count] returns normally a list of exactly [count]
    records. *)
Theorem generate_sample_data_count {R : RandomSource} (count : Z) (w : world) :
  0 < count -> clock_in_range (clock w) ->
  exists records w',
    generate_sample_data count w = (Ok records, w') /\
    Z.of_nat (length records) = count.
Proof.
  intros Hcount Hclock.
  destruct (generate_sample_data_returns count w Hclock)
    as (records & w' & Hrun & Hlen & _ & _).
  exists records, w'. split; [exact Hrun | lia].
Qed.

Lemma generate_sample_data_count_witness :
  0 < 3 /\ clock_in_range (clock demo_world) /\
  exists records w',
    @generate_sample_data TapeSource 3 demo_world = (Ok records, w') /\
    Z.of_nat (length records) = 3.
Proof.
  split; [lia |].
  split; [split; vm_compute; [discriminate | reflexivity] |].
  apply (@generate_sample_data_count TapeSource 3 demo_world);
    [lia | split; vm_compute; [discriminate | reflexivity]].
Defined.

Ltac by_vm :=
  match goal with
  | |- ?a = ?b => let v := eval vm_compute in b in vm_cast_no_check (eq_refl v)
  | |- ?a < ?b => change ((a ?= b) = Lt); vm_cast_no_check (eq_refl Lt)
  end.

Lemma demo_run_one : @generate_sample_data TapeSource 1 demo_world = demo_one.
Proof. vm_cast_no_check (eq_refl demo_one). Qed.

(** C2 (the code departs from it): with [days=7], [hours=23] and
    [minutes=59] drawn, the one record of [generate_sample_data 1] carries a
    timestamp 23 hours 59 minutes later than the clock reading, outside
    [[now - 7 days, now]]. *)
Theorem timestamp_after_now :
  exists r w',
    @generate_sample_data TapeSource 1 demo_world = (Ok [r], w') /\
    timestamp r = "2024-05-09T11:59:00.000250" /\
    isoformat (clock demo_world) = "2024-05-08T12:00:00.000250" /\
    fromisoformat (timestamp r) = Some (clock demo_world + timedelta 0 23 59) /\
    clock demo_world < clock demo_world + timedelta 0 23 59.
Proof.
  pose proof demo_run_one as Hrun. unfold demo_one in Hrun.
  eexists _, _. split; [exact Hrun |]. cbv beta iota delta [timestamp].
  repeat split; by_vm.
Qed.

(** What does hold of the timestamps: each one reads back as an instant of
    [[now - 7 days, now + 23 hours 59 minutes]]. *)
Lemma timestamp_window {R : RandomSource} (count : Z) (w : world) :
  clock_in_range (clock w) ->
  exists records w',
    generate_sample_data count w = (Ok records, w') /\
    Forall (fun r => exists t,
                fromisoformat (timestamp r) = Some t /\
                clock w - timedelta 7 0 0 <= t <= clock w + timedelta 0 23 59)
           records.
Proof.
  intros Hclock.
  destruct (generate_sample_data_returns count w Hclock)
    as (records & w' & Hrun & _ & Hall & _).
  exists records, w'. split; [exact Hrun |].
  eapply Forall_impl; [exact Hall |]. intros r Hr. simpl.
  destruct Hclock as [Hlo Hhi].
  assert (0 <= clock w - timedelta 7 0 0) as Hbase by lia.
  assert (clock w - timedelta 7 0 0 + timedelta 7 23 59 < DATETIME_END) as Hend
    by (unfold timedelta, US_PER_SECOND in *; lia).
  destruct (well_generated_timestamp _ r Hbase Hend Hr) as (t & Ht & Hbounds).
  exists t. split; [exact Ht |]. unfold timedelta, US_PER_SECOND in *. lia.
Qed.

(** C5: every record has its action and status in their closed sets, its
    department among the four departments, its location among the five
    candidate points, and its user_id, user_name and department copied from
    one and the same entity of the population. *)
Theorem generated_fields_closed {R : RandomSource} (count : Z) (w : world) :
  0 < count -> clock_in_range (clock w) ->
  exists records w',
    generate_sample_data count w = (Ok records, w') /\
    Forall (fun r =>
              action r ∈ ["login"; "logout"; "file_upload"; "file_download";
                          "api_call"; "database_query"] /\
              status r ∈ ["success"; "failed"; "timeout"] /\
              department r ∈ ["engineering"; "marketing"; "sales"; "hr"] /\
              location r ∈ locations /\
              exists u, u ∈ users /\ user_id r = uid u /\
                        user_name r = uname u /\ department r = udept u)
           records.
Proof.
  intros _ Hclock.
  destruct (generate_sample_data_returns count w Hclock)
    as (records & w' & Hrun & _ & Hall & _).
  exists records, w'. split; [exact Hrun |].
  eapply Forall_impl; [exact Hall |]. intros r Hr. simpl.
  destruct (gen_user _ _ Hr) as (u & Hu & Hid & Hname & Hdept).
  split; [exact (gen_action _ _ Hr) |].
  split; [exact (gen_status _ _ Hr) |].
  split; [| split; [exact (gen_location _ _ Hr) | eauto]].
  rewrite Hdept. unfold users in Hu.
  rewrite !elem_of_cons, elem_of_nil in Hu.
  destruct Hu as [-> | [-> | [-> | [-> | [-> | []]]]]]; simpl;
    rewrite !elem_of_cons; auto 10.
Qed.

Lemma generated_fields_closed_witness :
  0 < 3 /\ clock_in_range (clock demo_world) /\
  exists records w',
    @generate_sample_data TapeSource 3 demo_world = (Ok records, w') /\
    Forall (fun r =>
              action r ∈ ["login"; "logout"; "file_upload"; "file_download";
                          "api_call"; "database_query"] /\
              status r ∈ ["success"; "failed"; "timeout"] /\
              department r ∈ ["engineering"; "marketing"; "sales"; "hr"] /\
              location r ∈ locations /\
              exists u, u ∈ users /\ user_id r = uid u /\
                        user_name r = uname u /\ department r = udept u)
           records.
Proof.
  split; [lia |].
  split; [split; vm_compute; [discriminate | reflexivity] |].
  apply (@generated_fields_closed TapeSource 3 demo_world);
    [lia | split; vm_compute; [discriminate | reflexivity]].
Defined.



(** C10: every ip_address is [192.168.a.b] with [a] and [b] integers of
    [[1, 255]], written in decimal. *)
Theorem generated_ip_private {R : RandomSource} (count : Z) (w : world) :
  clock_in_range (clock w) ->
  exists records w',
    generate_sample_data count w = (Ok records, w') /\
    Forall (fun r => exists a b,
                1 <= a <= 255 /\ 1 <= b <= 255 /\
                ip_address r = "192.168." +:+ str_int a +:+ "." +:+ str_int b /\
                split_dots (ip_address r) = ["192"; "168"; str_int a; str_int b])
           records.
Proof.
  intros Hclock.
  destruct (generate_sample_data_returns count w Hclock)
    as (records & w' & Hrun & _ & Hall & _).
  exists records, w'. split; [exact Hrun |].
  eapply Forall_impl; [exact Hall |]. intros r Hr. simpl.
  destruct (gen_ip_address _ _ Hr) as (a & b & Ha & Hb & Hip).
  exists a, b. repeat split; try lia; try exact Hip.
  rewrite Hip.
  destruct (octet_str_int a ltac:(lia)) as [_ Hda].
  destruct (octet_str_int b ltac:(lia)) as [_ Hdb].
  change ("192.168." +:+ str_int a +:+ "." +:+ str_int b)
    with ("192" +:+ String "." ("168" +:+ String "."
            (str_int a +:+ String "." (str_int b)))).
  rewrite !split_dots_app, (split_dots_dotless _ Hdb) by (reflexivity || assumption).
  reflexivity.
Qed.

Lemma generated_ip_private_witness :
  clock_in_range (clock demo_world) /\
  exists records w',
    @generate_sample_data TapeSource 3 demo_world = (Ok records, w') /\
    Forall (fun r => exists a b,
                1 <= a <= 255 /\ 1 <= b <= 255 /\
                ip_address r = "192.168." +:+ str_int a +:+ "." +:+ str_int b /\
                split_dots (ip_address r) = ["192"; "168"; str_int a; str_int b])
           records.
Proof.
  split; [split; vm_compute; [discriminate | reflexivity] |].
  apply (@generated_ip_private TapeSource 3 demo_world).
  split; vm_compute; [discriminate | reflexivity].
Defined.

(** C7, as stated, fails: the same seed and the same count give different
    records when the clock reads one second later. *)
Lemma same_seed_later_clock_differs :
  ~ (seed_state demo_world = seed_state later_world ->
     fst (@generate_sample_data TapeSource 1 demo_world)
     = fst (@generate_sample_data TapeSource 1 later_world)).
Proof.
  intros H. specialize (H eq_refl).
  rewrite demo_run_one in H.
  replace (@generate_sample_data TapeSource 1 later_world) with later_one in H
    by (vm_cast_no_check (eq_refl later_one)).
  unfold demo_one, later_one in H. simpl in H. discriminate H.
Qed.

(** C7, amended: two runs with the same seed and the same count return
    identical lists when the clock reading is the same too; whatever the two
    (representable) clock readings, both runs return, the lists agree in
    every field but the timestamp, and the random source ends in the same
    state. *)
Theorem generate_sample_data_same_seed {R : RandomSource}
        (count : Z) (w1 w2 : world) :
  seed_state w1 = seed_state w2 ->
  clock_in_range (clock w1) -> clock_in_range (clock w2) ->
  (clock w1 = clock w2 ->
   generate_sample_data count w1 = generate_sample_data count w2) /\
  exists out1 out2 w1' w2',
    generate_sample_data count w1 = (Ok out1, w1') /\
    generate_sample_data count w2 = (Ok out2, w2') /\
    map blank_timestamp out1 = map blank_timestamp out2 /\
    seed_state w1' = seed_state w2'.
Proof.
  intros Hseed Hc1 Hc2. split.
  - intros Hclock. destruct w1, w2. simpl in *. subst. reflexivity.
  - destruct (generate_sample_data_returns count w1 Hc1) as (out1 & w1' & H1 & _).
    destruct (generate_sample_data_returns count w2 Hc2) as (out2 & w2' & H2 & _).
    exists out1, out2, w1', w2'.
    destruct (agree_generate_sample_data count _ _ _ _ _ _ Hseed H1 H2).
    auto.
Qed.

Lemma generate_sample_data_same_seed_witness :
  seed_state demo_world = seed_state later_world /\
  clock_in_range (clock demo_world) /\ clock_in_range (clock later_world) /\
  exists out1 out2 w1' w2',
    @generate_sample_data TapeSource 3 demo_world = (Ok out1, w1') /\
    @generate_sample_data TapeSource 3 later_world = (Ok out2, w2') /\
    map blank_timestamp out1 = map blank_timestamp out2 /\
    seed_state w1' = seed_state w2'.
Proof.
  split; [reflexivity |].
  split; [split; vm_compute; [discriminate | reflexivity] |].
  split; [split; vm_compute; [discriminate | reflexivity] |].
  apply (@generate_sample_data_same_seed TapeSource 3 demo_world later_world);
    [reflexivity | split; vm_compute; [discriminate | reflexivity]
     | split; vm_compute; [discriminate | reflexivity]].
Defined.

(** C8, as stated, fails: [count = 0] violates [count > 0], and the run
    returns (the empty list) instead of signalling an error. *)
Lemma zero_count_no_error :
  ~ (0 <= 0 ->
     signals_error (fst (@generate_sample_data TapeSource 0 demo_world))).
Proof.
  intros H. destruct (H ltac:(lia)) as [e He].
  vm_compute in He. discriminate He.
Qed.

(** C8, amended: the generator checks nothing and signals no error, whatever
    the count: it returns normally, with the empty list when [count <= 0]. *)
Theorem generate_sample_data_no_error {R : RandomSource} (count : Z) (w : world) :
  clock_in_range (clock w) ->
  ~ signals_error (fst (generate_sample_data count w)) /\
  exists records w',
    generate_sample_data count w = (Ok records, w') /\
    (count <= 0 -> records = []).
Proof.
  intros Hclock.
  destruct (generate_sample_data_returns count w Hclock)
    as (records & w' & Hrun & Hlen & _ & _).
  split.
  - rewrite Hrun. intros [e He]. discriminate He.
  - exists records, w'. split; [exact Hrun |].
    intros Hle. apply nil_length_inv. rewrite Hlen. lia.
Qed.

Lemma generate_sample_data_no_error_witness :
  clock_in_range (clock demo_world) /\
  ~ signals_error (fst (@generate_sample_data TapeSource (-2) demo_world)) /\
  exists records w',
    @generate_sample_data TapeSource (-2) demo_world = (Ok records, w') /\
    (-2 <= 0 -> records = []).
Proof.
  split; [split; vm_compute; [discriminate | reflexivity] |].
  apply (@generate_sample_data_no_error TapeSource (-2) demo_world).
  split; vm_compute; [discriminate | reflexivity].
Defined.

(** * The schema call and the loader *)


(** C3, as stated, fails: on ten documents of which one is malformed,
    [insert_data] returns no [BulkResult] with 9 accepted and 1 rejected: it
    returns [None]. *)
Lemma mixed_batch_no_result :
  ~ (exists br s',
        insert_data (helpers_bulk accepts_ip) INDEX_NAME mixed_batch
                    provisioned_cluster = (Ok (Some br), s') /\
        accepted br = 9%nat /\ length (rejected br) = 1%nat).
Proof.
  intros (br & s' & Hrun & _). rewrite insert_data_run in Hrun. discriminate Hrun.
Qed.

(** What that run does instead: the nine well-formed documents reach the
    index, and the only line printed is the error of the bulk helper. *)
Lemma mixed_batch_run :
  insert_data (helpers_bulk accepts_ip) INDEX_NAME mixed_batch provisioned_cluster
  = mixed_run /\
  fst mixed_run = Ok None /\
  stdout (snd mixed_run)
  = ["Index 'user_activity_logs' created successfully";
     "Error during bulk insert: 1 document(s) failed to index."] /\
  (docs <$> cluster (snd mixed_run) !! INDEX_NAME) = Some (replicate 9 good_doc).
Proof.
  split; [vm_cast_no_check (eq_refl mixed_run) |].
  split; [reflexivity |].
  split; [reflexivity |].
  vm_cast_no_check (eq_refl (Some (replicate 9 good_doc))).
Qed.

(** C3, amended: for every batch and every outcome of the bulk helper,
    [insert_data] hands the helper one action per record, in order and
    addressed to the index, returns [None], leaves the cluster as the helper
    left it, and prints the helper's success count followed, when the list of
    failures it returned is not empty, by the number of failures, or else the
    message of the exception the helper raised. *)
Theorem insert_data_reports
        (bulk : list bulk_action -> M es_world (nat * list bulk_error))
        (index_name : string) (data : list activity) (s : es_world) :
  let actions := map (fun doc => {| _index := index_name; _source := doc |}) data in
  exists s',
    insert_data bulk index_name data s = (Ok None, s') /\
    cluster s' = cluster (snd (bulk actions s)) /\
    stdout s' = (stdout (snd (bulk actions s)) ++ report (fst (bulk actions s)))%list /\
    match fst (bulk actions s) with
    | Ok (success, []) =>
        report (fst (bulk actions s))
        = ["Successfully inserted " +:+ str_int (Z.of_nat success) +:+ " documents"]
    | Ok (success, f :: failed) =>
        report (fst (bulk actions s))
        = ["Successfully inserted " +:+ str_int (Z.of_nat success) +:+ " documents";
           "Failed to insert " +:+ str_int (Z.of_nat (length (f :: failed)))
           +:+ " documents"]
    | Err e =>
        report (fst (bulk actions s)) = ["Error during bulk insert: " +:+ exn_msg e]
    end.
Proof.
  intros actions. eexists. split; [apply insert_data_run |].
  split; [reflexivity |]. split; [reflexivity |].
  fold actions. destruct (fst (bulk actions s)) as [[success [|f failed]]|e];
    reflexivity.
Qed.

(** C9: whatever the bulk helper does, exceptions included, [insert_data]
    returns normally, with [None]. *)
Theorem insert_data_never_raises
        (bulk : list bulk_action -> M es_world (nat * list bulk_error))
        (index_name : string) (data : list activity) (s : es_world) :
  exists s', insert_data bulk index_name data s = (Ok None, s').
Proof. eexists. apply insert_data_run. Qed.

(** * More about the generator *)

Lemma timestamp_window_witness :
  clock_in_range (clock demo_world) /\
  exists records w',
    @generate_sample_data TapeSource 3 demo_world = (Ok records, w') /\
    Forall (fun r => exists t,
                fromisoformat (timestamp r) = Some t /\
                clock demo_world - timedelta 7 0 0 <= t
                <= clock demo_world + timedelta 0 23 59)
           records.
Proof.
  split; [split; vm_compute; [discriminate | reflexivity] |].
  apply (@timestamp_window TapeSource 3 demo_world).
  split; vm_compute; [discriminate | reflexivity].
Defined.

Section MoreGeneratorFacts.
Context {R : RandomSource}.

(** The offsets added to the base time are whole minutes: every timestamp
    has the second and the microsecond of the clock reading. *)
Lemma timestamp_keeps_seconds (count : Z) (w : world) :
  clock_in_range (clock w) ->
  exists records w',
    generate_sample_data count w = (Ok records, w') /\
    Forall (fun r => exists t,
                fromisoformat (timestamp r) = Some t /\
                t mod (60 * US_PER_SECOND) = clock w mod (60 * US_PER_SECOND))
           records.
Proof.
  intros Hclock.
  destruct (generate_sample_data_returns count w Hclock)
    as (records & w' & Hrun & _ & Hall & _).
  exists records, w'. split; [exact Hrun |].
  eapply Forall_impl; [exact Hall |]. intros r Hr. simpl.
  destruct Hclock as [Hlo Hhi].
  destruct (gen_timestamp _ _ Hr) as (days & hours & minutes & Hd & Hh & Hm & Hts).
  exists (clock w - timedelta 7 0 0 + timedelta days hours minutes).
  split.
  - rewrite Hts. apply fromisoformat_isoformat. unfold datetime_valid.
    unfold timedelta, US_PER_SECOND in *. lia.
  - replace (clock w - timedelta 7 0 0 + timedelta days hours minutes)
      with (clock w + (((days - 7) * 24 + hours) * 60 + minutes) * (60 * US_PER_SECOND))
      by (unfold timedelta; lia).
    apply Z_mod_plus_full.
Qed.





(** Every record carries the one user agent of the source and a session of
    one minute to one hour. *)
Lemma generated_session_and_agent (count : Z) (w : world) :
  clock_in_range (clock w) ->
  exists records w',
    generate_sample_data count w = (Ok records, w') /\
    Forall (fun r =>
              60 <= session_duration r <= 3600 /\
              user_agent r
              = "Mozilla/5.0 (Windows NT 10.0; Win64; x64) AppleWebKit/537.36")
           records.
Proof.
  intros Hclock.
  destruct (generate_sample_data_returns count w Hclock)
    as (records & w' & Hrun & _ & Hall & _).
  exists records, w'. split; [exact Hrun |].
  eapply Forall_impl; [exact Hall |]. intros r Hr. simpl.
  split; [exact (gen_session_duration _ _ Hr) | exact (gen_user_agent _ _ Hr)].
Qed.

End MoreGeneratorFacts.

Lemma timestamp_keeps_seconds_witness :
  clock_in_range (clock demo_world) /\
  exists records w',
    @generate_sample_data TapeSource 3 demo_world = (Ok records, w') /\
    Forall (fun r => exists t,
                fromisoformat (timestamp r) = Some t /\
                t mod (60 * US_PER_SECOND)
                = clock demo_world mod (60 * US_PER_SECOND))
           records.
Proof.
  split; [split; vm_compute; [discriminate | reflexivity] |].
  apply (@timestamp_keeps_seconds TapeSource 3 demo_world).
  split; vm_compute; [discriminate | reflexivity].
Defined.


Lemma generated_session_and_agent_witness :
  clock_in_range (clock demo_world) /\
  exists records w',
    @generate_sample_data TapeSource 3 demo_world = (Ok records, w') /\
    Forall (fun r =>
              60 <= session_duration r <= 3600 /\
              user_agent r
              = "Mozilla/5.0 (Windows NT 10.0; Win64; x64) AppleWebKit/537.36")
           records.
Proof.
  split; [split; vm_compute; [discriminate | reflexivity] |].
  apply (@generated_session_and_agent TapeSource 3 demo_world).
  split; vm_compute; [discriminate | reflexivity].
Defined.

(** * More about the schema call and the loader *)


Section MoreHelperFacts.
Variable accepts : activity -> bool.

(** What the cluster does with one chunk: it keeps the documents it accepts,
    in order, and lists the others. *)
Lemma send_chunk_filter (index_name : string) (data : list activity) :
  forall c ok errors,
    send_chunk accepts (map (action_for index_name) data) c ok errors
    = (foldl (fun c a => index_doc a c) c
             (map (action_for index_name) (filter (fun d => accepts d = true) data)),
       (ok + length (filter (fun d => accepts d = true) data))%nat,
       (errors ++ map (fun d => {| failed_doc := d;
                                   reason := "mapper_parsing_exception" |})
                      (filter (fun d => accepts d <> true) data))%list).
Proof.
  induction data as [|d data IH]; intros c ok errors; simpl.
  - rewrite Nat.add_0_r, app_nil_r. reflexivity.
  - rewrite !filter_cons. destruct (accepts d) eqn:Hd.
    + rewrite decide_True, decide_False by congruence.
      rewrite IH. simpl. rewrite Nat.add_succ_r. reflexivity.
    + rewrite decide_False, decide_True by congruence.
      rewrite IH. simpl. rewrite <- app_assoc. reflexivity.
Qed.

(** Writing documents one after the other to an index that exists appends
    them to it and changes nothing else. *)
Lemma foldl_index_doc (index_name : string) (data : list activity) :
  forall c ix,
    c !! index_name = Some ix ->
    foldl (fun c a => index_doc a c) c (map (action_for index_name) data)
    = <[index_name := {| body := body ix; docs := (docs ix ++ data)%list |}]> c.
Proof.
  induction data as [|d data IH]; intros c ix Hix; simpl.
  - rewrite app_nil_r. destruct ix. simpl. symmetry. apply insert_id, Hix.
  - unfold index_doc at 2. simpl. rewrite Hix. simpl.
    rewrite (IH _ {| body := body ix; docs := (docs ix ++ [d])%list |})
      by apply lookup_insert_eq.
    simpl. rewrite insert_insert_eq, <- app_assoc. reflexivity.
Qed.

Lemma chunks_of_one {A} (l : list A) :
  l <> [] -> (length l <= CHUNK_SIZE)%nat -> chunks_of CHUNK_SIZE l = [l].
Proof.
  intros Hne Hlen. unfold chunks_of. destruct l as [|x l]; [congruence |].
  simpl length. cbn [chunks_fuel].
  rewrite take_ge, drop_ge by exact Hlen.
  destruct (length l); reflexivity.
Qed.

(** An empty batch: the helper has nothing to send; [insert_data] prints a
    count of 0 and the cluster is as before. *)
Lemma insert_data_empty (index_name : string) (s : es_world) :
  insert_data (helpers_bulk accepts) index_name [] s
  = (Ok None,
     {| cluster := cluster s;
        stdout := (stdout s ++ ["Successfully inserted 0 documents"])%list |}).
Proof. rewrite insert_data_run. reflexivity. Qed.

(** The run of [insert_data] on a batch that is accepted in full. *)
Lemma insert_data_accepted_run (index_name : string) (data : list activity)
      (s : es_world) (ix : index_state) :
  Forall (fun doc => accepts doc = true) data ->
  cluster s !! index_name = Some ix ->
  insert_data (helpers_bulk accepts) index_name data s
  = (Ok None,
     {| cluster := <[index_name := {| body := body ix;
                                      docs := (docs ix ++ data)%list |}]> (cluster s);
        stdout := (stdout s ++ ["Successfully inserted "
                                +:+ str_int (Z.of_nat (length data))
                                +:+ " documents"])%list |}).
Proof.
  intros Hall Hix. rewrite insert_data_run. cbv zeta.
  change (map (fun doc => {| _index := index_name; _source := doc |}) data)
    with (map (action_for index_name) data).
  rewrite helpers_bulk_accepted
    by (apply Forall_map; eapply Forall_impl; [exact Hall | auto]).
  simpl. rewrite length_map, (foldl_index_doc _ _ _ ix Hix). reflexivity.
Qed.

(** A batch the cluster accepts in full, sent to an index that exists: every
    record is appended to the index, in order, and the one line printed
    carries the number of records. *)
Lemma insert_data_all_accepted (index_name : string) (data : list activity)
      (s : es_world) (ix : index_state) :
  Forall (fun doc => accepts doc = true) data ->
  cluster s !! index_name = Some ix ->
  insert_data (helpers_bulk accepts) index_name data s
  = (Ok None,
     {| cluster := <[index_name := {| body := body ix;
                                      docs := (docs ix ++ data)%list |}]> (cluster s);
        stdout := (stdout s ++ ["Successfully inserted "
                                +:+ str_int (Z.of_nat (length data))
                                +:+ " documents"])%list |}).
Proof. exact (insert_data_accepted_run index_name data s ix). Qed.

(** A batch of at most one chunk in which the cluster rejects something: the
    documents it accepts are still appended to the index, in order, but the
    only line printed is the error of the helper with the number of rejected
    documents; no count of accepted documents is printed. *)
Lemma insert_data_some_rejected (index_name : string) (data : list activity)
      (s : es_world) (ix : index_state) :
  (length data <= CHUNK_SIZE)%nat ->
  Exists (fun doc => accepts doc <> true) data ->
  cluster s !! index_name = Some ix ->
  insert_data (helpers_bulk accepts) index_name data s
  = (Ok None,
     {| cluster :=
          <[index_name :=
              {| body := body ix;
                 docs := (docs ix ++ filter (fun doc => accepts doc = true) data)%list |}]>
            (cluster s);
        stdout :=
          (stdout s ++
           ["Error during bulk insert: "
            +:+ str_int (Z.of_nat (length (filter (fun doc => accepts doc <> true) data)))
            +:+ " document(s) failed to index."])%list |}).
Proof.
  intros Hlen Hex Hix. rewrite insert_data_run. cbv zeta.
  change (map (fun doc => {| _index := index_name; _source := doc |}) data)
    with (map (action_for index_name) data).
  assert (filter (fun doc => accepts doc <> true) data <> []) as Hrej.
  { apply Exists_exists in Hex. destruct Hex as (d & Hd & Hnot).
    intros Hnil. assert (d ∈ filter (fun doc => accepts doc <> true) data) as Hin
      by (apply list_elem_of_filter; auto).
    rewrite Hnil in Hin. apply elem_of_nil in Hin. exact Hin. }
  assert (data <> []) as Hne by (intros ->; apply Hrej; reflexivity).
  unfold helpers_bulk, bind.
  rewrite chunks_of_one;
    [| destruct data; [congruence | discriminate] | rewrite length_map; exact Hlen].
  cbn [streaming_bulk]. rewrite send_chunk_filter. cbn [app].
  destruct (filter (fun doc => accepts doc <> true) data) as [|d0 rej] eqn:Hf;
    [congruence |].
  cbn [map]. cbn [fst snd cluster stdout report exn_msg length].
  rewrite length_map, (foldl_index_doc _ _ _ ix Hix). reflexivity.
Qed.

End MoreHelperFacts.

Lemma insert_data_all_accepted_witness :
  Forall (fun doc => accepts_ip doc = true) (replicate 4 good_doc) /\
  cluster provisioned_cluster !! INDEX_NAME = Some {| body := mapping; docs := [] |} /\
  insert_data (helpers_bulk accepts_ip) INDEX_NAME (replicate 4 good_doc)
              provisioned_cluster
  = (Ok None,
     {| cluster :=
          <[INDEX_NAME := {| body := mapping;
                             docs := ([] ++ replicate 4 good_doc)%list |}]>
            (cluster provisioned_cluster);
        stdout := (stdout provisioned_cluster
                   ++ ["Successfully inserted "
                       +:+ str_int (Z.of_nat (length (replicate 4 good_doc)))
                       +:+ " documents"])%list |}).
Proof.
  split; [repeat constructor |].
  split; [vm_compute; reflexivity |].
  apply (insert_data_all_accepted accepts_ip INDEX_NAME (replicate 4 good_doc)
           provisioned_cluster {| body := mapping; docs := [] |});
    [repeat constructor | vm_compute; reflexivity].
Defined.

Lemma insert_data_some_rejected_witness :
  (length mixed_batch <= CHUNK_SIZE)%nat /\
  Exists (fun doc => accepts_ip doc <> true) mixed_batch /\
  cluster provisioned_cluster !! INDEX_NAME = Some {| body := mapping; docs := [] |} /\
  insert_data (helpers_bulk accepts_ip) INDEX_NAME mixed_batch provisioned_cluster
  = (Ok None,
     {| cluster :=
          <[INDEX_NAME :=
              {| body := mapping;
                 docs := ([] ++ filter (fun doc => accepts_ip doc = true)
                                       mixed_batch)%list |}]>
            (cluster provisioned_cluster);
        stdout :=
          (stdout provisioned_cluster ++
           ["Error during bulk insert: "
            +:+ str_int (Z.of_nat (length (filter (fun doc => accepts_ip doc <> true)
                                                  mixed_batch)))
            +:+ " document(s) failed to index."])%list |}).
Proof.
  assert (Exists (fun doc => accepts_ip doc <> true) mixed_batch) as Hex.
  { apply Exists_exists. exists malformed_doc. split.
    - unfold mixed_batch. apply elem_of_app. right. apply list_elem_of_here.
    - vm_compute. discriminate. }
  split; [vm_compute; lia |].
  split; [exact Hex |].
  split; [vm_compute; reflexivity |].
  apply (insert_data_some_rejected accepts_ip INDEX_NAME mixed_batch
           provisioned_cluster {| body := mapping; docs := [] |});
    [vm_compute; lia | exact Hex | vm_compute; reflexivity].
Defined.

(** * The main function *)

Section MainFacts.
Context {R : RandomSource}.
Variable ping : es_world -> bool.
Variable info_cluster_name : M es_world string.
Variable bulk : list bulk_action -> M es_world (nat * list bulk_error).
Variable indices_refresh : string -> M es_world unit.
Variable search_data : string -> M es_world unit.
Variable perform_aggregations : string -> M es_world unit.

(** When the liveness check fails, [main] does nothing but print the error:
    no index is created, no random number is drawn, and [main] itself
    returns normally. *)
Lemma main_no_connection (p : process) :
  ping (es_state p) = false ->
  main ping info_cluster_name bulk indices_refresh search_data
       perform_aggregations p
  = (Ok tt,
     {| gen_state := gen_state p;
        es_state :=
          {| cluster := cluster (es_state p);
             stdout := (stdout (es_state p)
                        ++ ["Error: Could not connect to Elasticsearch"])%list |} |}).
Proof.
  intros Hping.
  unfold main, try_except, bind, lift_es, connect_to_elasticsearch.
  rewrite Hping. reflexivity.
Qed.

End MainFacts.

Lemma well_generated_accepts_ip (base_time : datetime) (r : activity) :
  well_generated base_time r -> accepts_ip r = true.
Proof.
  intros Hr. unfold accepts_ip.
  destruct (gen_ip_address _ _ Hr) as (a & b & Ha & Hb & ->).
  apply private_address_valid; assumption.
Qed.

(** Generated records pass the cluster's check of the [ip] field, so a
    generated batch is loaded in full: with the index in place, [insert_data]
    appends every generated record to it, in order, and prints their number. *)
Lemma generate_then_insert {R : RandomSource} (count : Z) (w : world)
      (s : es_world) (ix : index_state) :
  clock_in_range (clock w) ->
  cluster s !! INDEX_NAME = Some ix ->
  exists records w',
    generate_sample_data count w = (Ok records, w') /\
    insert_data (helpers_bulk accepts_ip) INDEX_NAME records s
    = (Ok None,
       {| cluster := <[INDEX_NAME := {| body := body ix;
                                        docs := (docs ix ++ records)%list |}]>
                       (cluster s);
          stdout := (stdout s ++ ["Successfully inserted "
                                  +:+ str_int (Z.of_nat (length records))
                                  +:+ " documents"])%list |}) /\
    length records = Z.to_nat count.
Proof.
  intros Hclock Hix.
  destruct (generate_sample_data_returns count w Hclock)
    as (records & w' & Hrun & Hlen & Hall & _).
  exists records, w'. split; [exact Hrun |]. split; [| exact Hlen].
  apply insert_data_accepted_run; [| exact Hix].
  eapply Forall_impl; [exact Hall |]. intros r Hr.
  exact (well_generated_accepts_ip _ r Hr).
Qed.

Section MainRun.
Context {R : RandomSource}.
Variable ping : es_world -> bool.
Variable info_cluster_name : M es_world string.
Variable indices_refresh : string -> M es_world unit.
Variable search_data : string -> M es_world unit.
Variable perform_aggregations : string -> M es_world unit.

(** With the cluster alive, under a cluster that checks the [ip] field and
    reporting calls that only read, [main] returns normally whatever the
    reporting calls do, and leaves the 150 generated records appended to
    [user_activity_logs] (created with the mapping if it was missing); no
    other index changes. *)
Lemma main_loads_generated_records (p : process) :
  ping (es_state p) = true ->
  (forall s, exists name s', info_cluster_name s = (Ok name, s') /\
                             cluster s' = cluster s) ->
  quiet (indices_refresh INDEX_NAME) ->
  quiet (search_data INDEX_NAME) ->
  quiet (perform_aggregations INDEX_NAME) ->
  clock_in_range (clock (gen_state p)) ->
  let ix := default {| body := mapping; docs := [] |}
                    (cluster (es_state p) !! INDEX_NAME) in
  exists records w' p',
    generate_sample_data 150 (gen_state p) = (Ok records, w') /\
    length records = 150%nat /\
    main ping info_cluster_name (helpers_bulk accepts_ip) indices_refresh
         search_data perform_aggregations p = (Ok tt, p') /\
    gen_state p' = w' /\
    cluster (es_state p')
    = <[INDEX_NAME := {| body := body ix; docs := (docs ix ++ records)%list |}]>
        (cluster (es_state p)).
Proof.
  intros Hping Hinfo Hrefresh Hsearch Haggs Hclock ix.
  destruct p as [w s]. simpl in *.
  destruct (generate_sample_data_returns 150 w Hclock)
    as (records & w' & Hrun & Hlen & Hall & _).
  exists records, w'.
  change (Z.to_nat 150) with 150%nat in Hlen.
  (* the connection *)
  set (s1 := {| cluster := cluster s;
                stdout := (stdout s ++ ["Connected to Elasticsearch successfully!"])%list |}).
  destruct (Hinfo s1) as (name & s2 & Hname & Hc2).
  unfold s1 in Hc2. simpl in Hc2.
  set (s3 := {| cluster := cluster s2;
                stdout := (stdout s2 ++ ["Cluster info: " +:+ name])%list |}).
  assert (connect_to_elasticsearch ping info_cluster_name s = (Ok tt, s3)) as Hconnect.
  { unfold connect_to_elasticsearch. rewrite Hping.
    unfold bind, print. fold s1. rewrite Hname. reflexivity. }
  (* the index *)
  assert (exists created s4,
             create_index_if_not_exists INDEX_NAME s3 = (Ok created, s4) /\
             cluster s4 !! INDEX_NAME = Some ix /\
             cluster s4 = <[INDEX_NAME := ix]> (cluster s)) as (created & s4 & Hcreate & Hix & Hc4).
  { subst ix. destruct (cluster s !! INDEX_NAME) as [ix0|] eqn:Hix0; simpl.
    - eexists false, _. split.
      + apply create_index_if_not_exists_present. simpl. rewrite Hc2, Hix0. eauto.
      + simpl. rewrite Hc2. split; [exact Hix0 |]. symmetry. apply insert_id, Hix0.
    - eexists true, _. split.
      + apply create_index_if_not_exists_absent. simpl. rewrite Hc2. exact Hix0.
      + simpl. rewrite Hc2. split; [apply lookup_insert_eq | reflexivity]. }
  (* the batch *)
  set (s5 := {| cluster := cluster s4;
                stdout := (stdout s4 ++ [NL +:+ "Generating sample data..."])%list |}).
  set (s6 := {| cluster := cluster s5;
                stdout := (stdout s5 ++ ["Inserting data into Elasticsearch..."])%list |}).
  assert (Forall (fun doc => accepts_ip doc = true) records) as Hacc.
  { eapply Forall_impl; [exact Hall |]. intros r Hr.
    exact (well_generated_accepts_ip _ r Hr). }
  pose proof (insert_data_accepted_run accepts_ip INDEX_NAME records s6 ix Hacc Hix)
    as Hinsert.
  set (s7 := {| cluster := <[INDEX_NAME := {| body := body ix;
                                              docs := (docs ix ++ records)%list |}]>
                             (cluster s6);
                stdout := (stdout s6 ++ ["Successfully inserted "
                                         +:+ str_int (Z.of_nat (length records))
                                         +:+ " documents"])%list |}) in *.
  assert (cluster s7
          = <[INDEX_NAME := {| body := body ix; docs := (docs ix ++ records)%list |}]>
              (cluster s)) as Hc7.
  { simpl. rewrite Hc4. apply insert_insert_eq. }
  (* the reports *)
  assert (print (NL +:+ "Generating sample data...") s4 = (Ok tt, s5)) as Hp5
    by reflexivity.
  assert (print "Inserting data into Elasticsearch..." s5 = (Ok tt, s6)) as Hp6
    by reflexivity.
  unfold main, try_except, bind, lift_es, lift_gen. cbn [gen_state es_state].
  rewrite Hconnect. cbn [gen_state es_state].
  rewrite Hcreate. cbn [gen_state es_state].
  rewrite Hp5. cbn [gen_state es_state].
  rewrite Hrun. cbn [gen_state es_state].
  rewrite Hp6. cbn [gen_state es_state].
  rewrite Hinsert. cbn [gen_state es_state].
  clearbody s7 s6 s5 s3 s1.
  pose proof (Hrefresh s7) as Q1.
  destruct (indices_refresh INDEX_NAME s7) as [[[]|e1] s8]; cbn [snd] in Q1;
    cbn [gen_state es_state];
    [| eexists; split; [reflexivity |]; split; [exact Hlen |];
       split; [reflexivity |]; split; [reflexivity |];
       cbn [es_state snd print cluster]; rewrite Q1; exact Hc7].
  pose proof (Hsearch s8) as Q2.
  destruct (search_data INDEX_NAME s8) as [[[]|e2] s9]; cbn [snd] in Q2;
    cbn [gen_state es_state];
    [| eexists; split; [reflexivity |]; split; [exact Hlen |];
       split; [reflexivity |]; split; [reflexivity |];
       cbn [es_state snd print cluster]; rewrite Q2, Q1; exact Hc7].
  pose proof (Haggs s9) as Q3.
  destruct (perform_aggregations INDEX_NAME s9) as [[[]|e3] s10]; cbn [snd] in Q3;
    cbn [gen_state es_state];
    eexists; (split; [reflexivity |]); (split; [exact Hlen |]);
      (split; [reflexivity |]); (split; [reflexivity |]);
      cbn [es_state snd print cluster]; rewrite Q3, Q2, Q1; exact Hc7.
Qed.

End MainRun.

Lemma generate_then_insert_witness :
  clock_in_range (clock demo_world) /\
  cluster provisioned_cluster !! INDEX_NAME = Some {| body := mapping; docs := [] |} /\
  exists records w',
    @generate_sample_data TapeSource 150 demo_world = (Ok records, w') /\
    insert_data (helpers_bulk accepts_ip) INDEX_NAME records provisioned_cluster
    = (Ok None,
       {| cluster := <[INDEX_NAME := {| body := mapping;
                                        docs := ([] ++ records)%list |}]>
                       (cluster provisioned_cluster);
          stdout := (stdout provisioned_cluster
                     ++ ["Successfully inserted "
                         +:+ str_int (Z.of_nat (length records))
                         +:+ " documents"])%list |}) /\
    length records = Z.to_nat 150.
Proof.
  split; [split; vm_compute; [discriminate | reflexivity] |].
  split; [vm_compute; reflexivity |].
  apply (@generate_then_insert TapeSource 150 demo_world provisioned_cluster
           {| body := mapping; docs := [] |});
    [split; vm_compute; [discriminate | reflexivity] | vm_compute; reflexivity].
Defined.

Lemma main_no_connection_witness :
  (fun _ : es_world => false) (es_state demo_process) = false /\
  main (fun _ => false) (ret "docker-cluster") (helpers_bulk accepts_ip)
       (fun _ => ret tt) (fun _ => ret tt) (fun _ => ret tt) demo_process
  = (Ok tt,
     {| gen_state := gen_state demo_process;
        es_state :=
          {| cluster := cluster (es_state demo_process);
             stdout := (stdout (es_state demo_process)
                        ++ ["Error: Could not connect to Elasticsearch"])%list |} |}).
Proof.
  split; [reflexivity |].
  apply (@main_no_connection TapeSource (fun _ => false) (ret "docker-cluster")
           (helpers_bulk accepts_ip) (fun _ => ret tt) (fun _ => ret tt)
           (fun _ => ret tt) demo_process).
  reflexivity.
Defined.

Lemma main_loads_generated_records_witness :
  (fun _ : es_world => true) (es_state demo_process) = true /\
  clock_in_range (clock (gen_state demo_process)) /\
  exists records w' p',
    @generate_sample_data TapeSource 150 (gen_state demo_process) = (Ok records, w') /\
    length records = 150%nat /\
    main (fun _ => true) (ret "docker-cluster") (helpers_bulk accepts_ip)
         (fun _ => ret tt) (fun _ => ret tt) (fun _ => ret tt) demo_process
    = (Ok tt, p') /\
    gen_state p' = w' /\
    cluster (es_state p')
    = <[INDEX_NAME := {| body := mapping; docs := ([] ++ records)%list |}]>
        (cluster (es_state demo_process)).
Proof.
  split; [reflexivity |].
  split; [split; vm_compute; [discriminate | reflexivity] |].
  apply (@main_loads_generated_records TapeSource (fun _ => true)
           (ret "docker-cluster") (fun _ => ret tt) (fun _ => ret tt)
           (fun _ => ret tt) demo_process).
  - reflexivity.
  - intros s. exists "docker-cluster", s. split; reflexivity.
  - intros s. reflexivity.
  - intros s. reflexivity.
  - intros s. reflexivity.
  - split; vm_compute; [discriminate | reflexivity].
Defined.
